(** * Authorization evaluator of pomerium: a shallow embedding

    The development follows [authorize/evaluator/evaluator.go] and
    [authorize/evaluator/config.go].  Go functions that return [(T, error)]
    return a [result T]; calls that leave the two files (route-id hashing,
    base64, X.509 validation, the rego-backed policy and headers evaluators,
    key handling) are fields of a class of collaborators, and every such call
    is recorded in a call log so that statements of the form "no certificate
    validation occurs" can be made about the code. *)

From Stdlib Require Import Ascii String List NArith Bool.
From stdpp Require Import base option list gmap strings.

Local Open Scope string_scope.
Local Open Scope list_scope.

(** ** Go values *)

(** [[]byte] and [string] are both byte sequences; the conversions
    [string(bs)] of the source are the identity here. *)
Definition bytes := string.

(** A non-nil interface value, as handed to [panic] and formatted by
    [fmt.Errorf]. *)
Inductive any : Type :=
| any_string (s : string)
| any_runtime_error (msg : string).

(** Go [error] values: opaque errors of collaborators, [fmt.Errorf] with a
    wrapping verb [%w], and [fmt.Errorf] formatting a value with [%v]. *)
Inductive error : Type :=
| errors_New (msg : string)
| fmt_Errorf_w (format : string) (err : error)
| fmt_Errorf_v (format : string) (v : any).

(** The pair [(T, error)] returned by a Go function. *)
Inductive result (A : Type) : Type :=
| Ok (a : A)
| Err (e : error).
Arguments Ok {A} a.
Arguments Err {A} e.

Definition is_Ok {A} (r : result A) : bool :=
  match r with Ok _ => true | Err _ => false end.

(** How a call ends: it returns, it panics with a value ([None] is
    [panic(nil)]), or it ends its goroutine with [runtime.Goexit]. *)
Inductive Outcome (A : Type) : Type :=
| Returns (a : A)
| Panics (v : option any)
| Goexits.
Arguments Returns {A} a.
Arguments Panics {A} v.
Arguments Goexits {A}.

(** A function with named results whose only deferred function calls
    [recover()]: [named0] holds the named results at the moment of the panic,
    [deferred] is the deferred closure, which receives what [recover()]
    returned ([None] for nil) and may assign to the named results.  The
    repository is built with Go 1.20.x: [recover()] returns the value given
    to [panic], so nil after [panic(nil)], and in every case stops the panic
    and makes the function return normally.  During [runtime.Goexit] the
    deferred closure runs, [recover()] returns nil and the goroutine ends:
    the function does not return. *)
Definition defer_recover {A} (named0 : A) (body : Outcome A)
    (deferred : option any -> A -> A) : Outcome A :=
  match body with
  | Returns a => Returns (deferred None a)
  | Panics v => Returns (deferred v named0)
  | Goexits => Goexits
  end.

(** ** Package criteria: reason codes *)

Inductive Reason : Type :=
| ReasonUserUnauthenticated
| ReasonPomeriumRoute
| ReasonRouteNotFound
| ReasonInvalidClientCertificate
| ReasonOther (name : string).

(** Modelled from the spec: [RuleResult] and [NewRuleResult] (the file
    declaring them is not among the sources): a boolean verdict plus the
    ordered reason codes.  The zero value is what a struct literal leaves in
    a field it does not mention. *)
Record RuleResult : Type := mkRuleResult {
  Value : bool;
  Reasons : list Reason
}.

Definition NewRuleResult (value : bool) (reasons : list Reason) : RuleResult :=
  {| Value := value; Reasons := reasons |}.

Definition RuleResult_zero : RuleResult := {| Value := false; Reasons := [] |}.

(** ** Request data (evaluator.go) *)

Record ClientCertificateInfo : Type := mkClientCertificateInfo {
  Presented : bool;
  Leaf : string;
  Intermediates : string
}.

Record RequestHTTP : Type := mkRequestHTTP {
  Method : string;
  Hostname : string;
  Path : string;
  URL : string;
  Headers : gmap string string;
  ClientCertificate : ClientCertificateInfo;
  IP : string
}.

Record RequestSession : Type := mkRequestSession {
  ID : string
}.

(** ** Types declared outside the two source files *)

Class Types : Type := {
  (** [config.Policy] and [config.JWTClaimHeaders] *)
  Policy : Type;
  JWTClaimHeaders : Type;
  JWTClaimHeaders_zero : JWTClaimHeaders;
  (** evaluator package, other files *)
  ClientCertConstraints : Type;
  ClientCertConstraints_zero : ClientCertConstraints;
  PolicyEvaluator : Type;
  HeadersEvaluator : Type;
  HeadersRequestFields : Type;
  (** [contextutil.PolicyEvaluationTrace] *)
  PolicyEvaluationTrace : Type;
  (** [jose.JSONWebKey] and the private key of [cryptutil.NewSigningKey] *)
  JSONWebKey : Type;
  PrivateKey : Type;
  (** package rego *)
  PreparedEvalQuery : Type;
  EvalOption : Type;
  ResultSet : Type;
  ResultSet_nil : ResultSet
}.

Section Embedding.
Context {T : Types}.

(** [Request] contains the inputs needed for evaluation; [ReqPolicy] is its
    [Policy] field, a nil pointer being [None]. *)
Record Request : Type := mkRequest {
  IsInternal : bool;
  ReqPolicy : option Policy;
  HTTP : RequestHTTP;
  Session : RequestSession
}.

(** [Result] is the result of evaluation; [ResHeaders] is its [Headers]
    field. *)
Record Result : Type := mkResult {
  Allow : RuleResult;
  Deny : RuleResult;
  ResHeaders : gmap string (list string);
  Traces : list PolicyEvaluationTrace
}.

(** [PolicyRequest], [PolicyResponse], [HeadersRequest] and
    [HeadersResponse] are declared next to the evaluators that consume and
    produce them; the fields below are the ones evaluator.go reads and
    writes.  The fields of a [HeadersRequest] that
    [NewHeadersRequestFromPolicy] fills are kept together in
    [HeadersRequestFields]. *)
Record PolicyRequest : Type := mkPolicyRequest {
  PReqHTTP : RequestHTTP;
  PReqSession : RequestSession;
  IsValidClientCertificate : bool
}.

Record PolicyResponse : Type := mkPolicyResponse {
  PAllow : RuleResult;
  PDeny : RuleResult;
  PTraces : list PolicyEvaluationTrace
}.

Record HeadersRequest : Type := mkHeadersRequest {
  HReqFields : HeadersRequestFields;
  HReqSession : RequestSession
}.

Record HeadersResponse : Type := mkHeadersResponse {
  HResHeaders : gmap string (list string)
}.

(** Modelled from the spec: the [Store] of authorize/internal/store (not
    among the sources), reduced to the four fields that [updateStore] sets;
    each [Update...] method replaces one field. *)
Record Store : Type := mkStore {
  GoogleCloudServerlessAuthenticationServiceAccount : string;
  StoreJWTClaimHeaders : JWTClaimHeaders;
  RoutePolicies : list Policy;
  SigningKey : option JSONWebKey
}.

Definition UpdateGoogleCloudServerlessAuthenticationServiceAccount
    (s : Store) (serviceAccount : string) : Store :=
  {| GoogleCloudServerlessAuthenticationServiceAccount := serviceAccount;
     StoreJWTClaimHeaders := StoreJWTClaimHeaders s;
     RoutePolicies := RoutePolicies s;
     SigningKey := SigningKey s |}.

Definition UpdateJWTClaimHeaders (s : Store) (h : JWTClaimHeaders) : Store :=
  {| GoogleCloudServerlessAuthenticationServiceAccount :=
       GoogleCloudServerlessAuthenticationServiceAccount s;
     StoreJWTClaimHeaders := h;
     RoutePolicies := RoutePolicies s;
     SigningKey := SigningKey s |}.

Definition UpdateRoutePolicies (s : Store) (ps : list Policy) : Store :=
  {| GoogleCloudServerlessAuthenticationServiceAccount :=
       GoogleCloudServerlessAuthenticationServiceAccount s;
     StoreJWTClaimHeaders := StoreJWTClaimHeaders s;
     RoutePolicies := ps;
     SigningKey := SigningKey s |}.

Definition UpdateSigningKey (s : Store) (jwk : JSONWebKey) : Store :=
  {| GoogleCloudServerlessAuthenticationServiceAccount :=
       GoogleCloudServerlessAuthenticationServiceAccount s;
     StoreJWTClaimHeaders := StoreJWTClaimHeaders s;
     RoutePolicies := RoutePolicies s;
     SigningKey := Some jwk |}.

(** ** Collaborators: functions called by the two source files *)

Class Collaborators : Type := {
  (** package config *)
  TLSDownstreamClientCA : Policy -> string;
  RouteID : Policy -> result N;
  (** encoding/base64: [base64.StdEncoding.DecodeString] *)
  base64_DecodeString : string -> result bytes;
  (** evaluator package, other files *)
  isValidClientCertificate :
    string -> string -> ClientCertificateInfo -> ClientCertConstraints ->
    result bool;
  PolicyEvaluator_Evaluate :
    PolicyEvaluator -> PolicyRequest -> result PolicyResponse;
  HeadersEvaluator_Evaluate :
    HeadersEvaluator -> HeadersRequest -> result HeadersResponse;
  NewHeadersRequestFromPolicy :
    option Policy -> RequestHTTP -> HeadersRequest;
  NewHeadersEvaluator : Store -> result HeadersEvaluator;
  NewPolicyEvaluator : Store -> Policy -> bool -> result PolicyEvaluator;
  (** package cryptutil; [NewSigningKey] is what the generator yields in
      this run *)
  NewSigningKey : result PrivateKey;
  EncodePrivateKey : PrivateKey -> result bytes;
  PrivateJWKFromBytes : bytes -> result JSONWebKey;
  (** package httputil and net/textproto *)
  HeaderPomeriumJWTAssertion : string;
  HeaderPomeriumJWTAssertionFor : string;
  CanonicalHeaderKey : string -> string;
  CanonicalMIMEHeaderKey : string -> string;
  (** package rego: [q.Eval(ctx, options...)] *)
  rego_Eval :
    PreparedEvalQuery -> list EvalOption ->
    Outcome (ResultSet * option error)
}.

Context {C : Collaborators}.

(** ** Call log *)

Inductive Call : Type :=
| Call_RouteID (p : Policy)
| Call_DecodeString (s : string)
| Call_isValidClientCertificate
    (ca crl : string) (info : ClientCertificateInfo)
    (constraints : ClientCertConstraints)
| Call_PolicyEvaluator_Evaluate (pe : PolicyEvaluator) (req : PolicyRequest)
| Call_HeadersEvaluator_Evaluate (he : HeadersEvaluator) (req : HeadersRequest)
| Call_NewSigningKey
| Call_EncodePrivateKey (key : PrivateKey)
| Call_PrivateJWKFromBytes (bs : bytes)
| Call_NewHeadersEvaluator
| Call_NewPolicyEvaluator (p : Policy) (addDefaultClientCertificateRule : bool).

Definition is_certificate_validation (c : Call) : bool :=
  match c with Call_isValidClientCertificate _ _ _ _ => true | _ => false end.

Definition is_rule_evaluation (c : Call) : bool :=
  match c with Call_PolicyEvaluator_Evaluate _ _ => true | _ => false end.

Definition is_key_generation (c : Call) : bool :=
  match c with Call_NewSigningKey => true | _ => false end.

(** A computation that logs its calls and stops at the first error. *)
Definition M (A : Type) : Type := (list Call * result A)%type.

Definition ret {A} (a : A) : M A := ([], Ok a).

Definition bind {A B} (m : M A) (k : A -> M B) : M B :=
  match m with
  | (l, Ok a) => let '(l', r) := k a in (l ++ l', r)
  | (l, Err e) => (l, Err e)
  end.

Definition call {A} (c : Call) (r : result A) : M A := ([c], r).

(** [v, err := f(); if err != nil { return nil, wrap(err) }] *)
Definition wrapErr {A} (wrap : error -> error) (m : M A) : M A :=
  match m with
  | (l, Ok a) => (l, Ok a)
  | (l, Err e) => (l, Err (wrap e))
  end.

Definition calls {A} (m : M A) : list Call := fst m.
Definition returned {A} (m : M A) : result A := snd m.

End Embedding.

Declare Scope go_scope.
Delimit Scope go_scope with go.
Notation "'do' x <- c ;; k" := (bind c (fun x => k))
  (at level 10, x name, c at level 99, k at level 200) : go_scope.

Local Open Scope go_scope.

(** ** config.go *)

Section Config.
Context {T : Types}.

Record evaluatorConfig : Type := mkEvaluatorConfig {
  cfg_policies : list Policy;
  cfg_clientCA : bytes;
  cfg_clientCRL : bytes;
  cfg_addDefaultClientCertificateRule : bool;
  cfg_clientCertConstraints : ClientCertConstraints;
  cfg_signingKey : bytes;
  cfg_authenticateURL : string;
  cfg_googleCloudServerlessAuthenticationServiceAccount : string;
  cfg_jwtClaimsHeaders : JWTClaimHeaders
}.

(** [new(evaluatorConfig)]: every field at its zero value. *)
Definition evaluatorConfig_zero : evaluatorConfig :=
  {| cfg_policies := [];
     cfg_clientCA := "";
     cfg_clientCRL := "";
     cfg_addDefaultClientCertificateRule := false;
     cfg_clientCertConstraints := ClientCertConstraints_zero;
     cfg_signingKey := "";
     cfg_authenticateURL := "";
     cfg_googleCloudServerlessAuthenticationServiceAccount := "";
     cfg_jwtClaimsHeaders := JWTClaimHeaders_zero |}.

(** An [Option] customizes the evaluator config (in place in the source,
    by returning the updated record here). *)
Definition Option : Type := evaluatorConfig -> evaluatorConfig.

Definition getConfig (options : list Option) : evaluatorConfig :=
  fold_left (fun cfg o => o cfg) options evaluatorConfig_zero.

Definition WithPolicies (policies : list Policy) : Option := fun cfg =>
  {| cfg_policies := policies;
     cfg_clientCA := cfg_clientCA cfg;
     cfg_clientCRL := cfg_clientCRL cfg;
     cfg_addDefaultClientCertificateRule :=
       cfg_addDefaultClientCertificateRule cfg;
     cfg_clientCertConstraints := cfg_clientCertConstraints cfg;
     cfg_signingKey := cfg_signingKey cfg;
     cfg_authenticateURL := cfg_authenticateURL cfg;
     cfg_googleCloudServerlessAuthenticationServiceAccount :=
       cfg_googleCloudServerlessAuthenticationServiceAccount cfg;
     cfg_jwtClaimsHeaders := cfg_jwtClaimsHeaders cfg |}.

Definition WithClientCA (clientCA : bytes) : Option := fun cfg =>
  {| cfg_policies := cfg_policies cfg;
     cfg_clientCA := clientCA;
     cfg_clientCRL := cfg_clientCRL cfg;
     cfg_addDefaultClientCertificateRule :=
       cfg_addDefaultClientCertificateRule cfg;
     cfg_clientCertConstraints := cfg_clientCertConstraints cfg;
     cfg_signingKey := cfg_signingKey cfg;
     cfg_authenticateURL := cfg_authenticateURL cfg;
     cfg_googleCloudServerlessAuthenticationServiceAccount :=
       cfg_googleCloudServerlessAuthenticationServiceAccount cfg;
     cfg_jwtClaimsHeaders := cfg_jwtClaimsHeaders cfg |}.

Definition WithClientCRL (clientCRL : bytes) : Option := fun cfg =>
  {| cfg_policies := cfg_policies cfg;
     cfg_clientCA := cfg_clientCA cfg;
     cfg_clientCRL := clientCRL;
     cfg_addDefaultClientCertificateRule :=
       cfg_addDefaultClientCertificateRule cfg;
     cfg_clientCertConstraints := cfg_clientCertConstraints cfg;
     cfg_signingKey := cfg_signingKey cfg;
     cfg_authenticateURL := cfg_authenticateURL cfg;
     cfg_googleCloudServerlessAuthenticationServiceAccount :=
       cfg_googleCloudServerlessAuthenticationServiceAccount cfg;
     cfg_jwtClaimsHeaders := cfg_jwtClaimsHeaders cfg |}.

Definition WithAddDefaultClientCertificateRule
    (addDefaultClientCertificateRule : bool) : Option := fun cfg =>
  {| cfg_policies := cfg_policies cfg;
     cfg_clientCA := cfg_clientCA cfg;
     cfg_clientCRL := cfg_clientCRL cfg;
     cfg_addDefaultClientCertificateRule := addDefaultClientCertificateRule;
     cfg_clientCertConstraints := cfg_clientCertConstraints cfg;
     cfg_signingKey := cfg_signingKey cfg;
     cfg_authenticateURL := cfg_authenticateURL cfg;
     cfg_googleCloudServerlessAuthenticationServiceAccount :=
       cfg_googleCloudServerlessAuthenticationServiceAccount cfg;
     cfg_jwtClaimsHeaders := cfg_jwtClaimsHeaders cfg |}.

Definition WithClientCertConstraints
    (constraints : ClientCertConstraints) : Option := fun cfg =>
  {| cfg_policies := cfg_policies cfg;
     cfg_clientCA := cfg_clientCA cfg;
     cfg_clientCRL := cfg_clientCRL cfg;
     cfg_addDefaultClientCertificateRule :=
       cfg_addDefaultClientCertificateRule cfg;
     cfg_clientCertConstraints := constraints;
     cfg_signingKey := cfg_signingKey cfg;
     cfg_authenticateURL := cfg_authenticateURL cfg;
     cfg_googleCloudServerlessAuthenticationServiceAccount :=
       cfg_googleCloudServerlessAuthenticationServiceAccount cfg;
     cfg_jwtClaimsHeaders := cfg_jwtClaimsHeaders cfg |}.

Definition WithSigningKey (signingKey : bytes) : Option := fun cfg =>
  {| cfg_policies := cfg_policies cfg;
     cfg_clientCA := cfg_clientCA cfg;
     cfg_clientCRL := cfg_clientCRL cfg;
     cfg_addDefaultClientCertificateRule :=
       cfg_addDefaultClientCertificateRule cfg;
     cfg_clientCertConstraints := cfg_clientCertConstraints cfg;
     cfg_signingKey := signingKey;
     cfg_authenticateURL := cfg_authenticateURL cfg;
     cfg_googleCloudServerlessAuthenticationServiceAccount :=
       cfg_googleCloudServerlessAuthenticationServiceAccount cfg;
     cfg_jwtClaimsHeaders := cfg_jwtClaimsHeaders cfg |}.

Definition WithAuthenticateURL (authenticateURL : string) : Option := fun cfg =>
  {| cfg_policies := cfg_policies cfg;
     cfg_clientCA := cfg_clientCA cfg;
     cfg_clientCRL := cfg_clientCRL cfg;
     cfg_addDefaultClientCertificateRule :=
       cfg_addDefaultClientCertificateRule cfg;
     cfg_clientCertConstraints := cfg_clientCertConstraints cfg;
     cfg_signingKey := cfg_signingKey cfg;
     cfg_authenticateURL := authenticateURL;
     cfg_googleCloudServerlessAuthenticationServiceAccount :=
       cfg_googleCloudServerlessAuthenticationServiceAccount cfg;
     cfg_jwtClaimsHeaders := cfg_jwtClaimsHeaders cfg |}.

Definition WithGoogleCloudServerlessAuthenticationServiceAccount
    (serviceAccount : string) : Option := fun cfg =>
  {| cfg_policies := cfg_policies cfg;
     cfg_clientCA := cfg_clientCA cfg;
     cfg_clientCRL := cfg_clientCRL cfg;
     cfg_addDefaultClientCertificateRule :=
       cfg_addDefaultClientCertificateRule cfg;
     cfg_clientCertConstraints := cfg_clientCertConstraints cfg;
     cfg_signingKey := cfg_signingKey cfg;
     cfg_authenticateURL := cfg_authenticateURL cfg;
     cfg_googleCloudServerlessAuthenticationServiceAccount := serviceAccount;
     cfg_jwtClaimsHeaders := cfg_jwtClaimsHeaders cfg |}.

Definition WithJWTClaimsHeaders (headers : JWTClaimHeaders) : Option :=
  fun cfg =>
  {| cfg_policies := cfg_policies cfg;
     cfg_clientCA := cfg_clientCA cfg;
     cfg_clientCRL := cfg_clientCRL cfg;
     cfg_addDefaultClientCertificateRule :=
       cfg_addDefaultClientCertificateRule cfg;
     cfg_clientCertConstraints := cfg_clientCertConstraints cfg;
     cfg_signingKey := cfg_signingKey cfg;
     cfg_authenticateURL := cfg_authenticateURL cfg;
     cfg_googleCloudServerlessAuthenticationServiceAccount :=
       cfg_googleCloudServerlessAuthenticationServiceAccount cfg;
     cfg_jwtClaimsHeaders := headers |}.

End Config.

(** ** evaluator.go *)

Section Evaluator.
Context {T : Types} {C : Collaborators}.

(** An [Evaluator] evaluates policies.  Its [store] field is a pointer to
    the shared store, which [New] and [updateStore] thread explicitly; no
    function that serves a request reads it. *)
Record Evaluator : Type := mkEvaluator {
  policyEvaluators : gmap N PolicyEvaluator;
  headersEvaluators : HeadersEvaluator;
  clientCA : bytes;
  clientCRL : bytes;
  clientCertConstraints : ClientCertConstraints
}.

(** [v, ok := m[k]]: the zero value and [false] for a missing key. *)
Definition lookup_ok (m : gmap string string) (k : string) : string * bool :=
  match m !! k with
  | Some v => (v, true)
  | None => ("", false)
  end.

(** [http.Header.Add]: append [value] to the values of the canonical form of
    [key]; [h] is an allocated map. *)
Definition Header_Add (h : gmap string (list string)) (key value : string)
    : gmap string (list string) :=
  let key := CanonicalMIMEHeaderKey key in
  <[key := default [] (h !! key) ++ [value]]> h.

(** [carryOverJWTAssertion] copies assertion JWT from request to response;
    the source updates [dst] in place, the updated header is returned here. *)
Definition carryOverJWTAssertion
    (dst : gmap string (list string)) (src : gmap string string)
    : gmap string (list string) :=
  let jwtForKey := CanonicalHeaderKey HeaderPomeriumJWTAssertionFor in
  let '(jwtFor, ok) := lookup_ok src jwtForKey in
  if ok && negb (jwtFor =? "")%string then
    Header_Add dst jwtForKey jwtFor
  else
    let '(jwtFor, ok) :=
      lookup_ok src (CanonicalHeaderKey HeaderPomeriumJWTAssertion) in
    if ok && negb (jwtFor =? "")%string then
      Header_Add dst jwtForKey jwtFor
    else dst.

Definition evaluateInternal (e : Evaluator) (req : Request)
    : M PolicyResponse :=
  let allowed :=
    ret {| PAllow := NewRuleResult true [ReasonPomeriumRoute];
           PDeny := RuleResult_zero;
           PTraces := [] |} in
  (* these endpoints require a logged-in user *)
  if (Path (HTTP req) =? "/.pomerium/webauthn")%string
     || (Path (HTTP req) =? "/.pomerium/jwt")%string
  then
    if (ID (Session req) =? "")%string then
      ret {| PAllow := NewRuleResult false [ReasonUserUnauthenticated];
             PDeny := RuleResult_zero;
             PTraces := [] |}
    else allowed
  else allowed.

Definition getClientCA (e : Evaluator) (policy : option Policy) : M string :=
  match policy with
  | Some p =>
      if negb (TLSDownstreamClientCA p =? "")%string then
        do bs <- call (Call_DecodeString (TLSDownstreamClientCA p))
                      (base64_DecodeString (TLSDownstreamClientCA p)) ;;
        ret bs
      else ret (clientCA e)
  | None => ret (clientCA e)
  end.

Definition evaluatePolicy (e : Evaluator) (req : Request)
    : M PolicyResponse :=
  match ReqPolicy req with
  | None =>
      ret {| PAllow := RuleResult_zero;
             PDeny := NewRuleResult true [ReasonRouteNotFound];
             PTraces := [] |}
  | Some p =>
      do id <- wrapErr
                 (fmt_Errorf_w "authorize: error computing policy route id: %w")
                 (call (Call_RouteID p) (RouteID p)) ;;
      match policyEvaluators e !! id with
      | None =>
          ret {| PAllow := RuleResult_zero;
                 PDeny := NewRuleResult true [ReasonRouteNotFound];
                 PTraces := [] |}
      | Some policyEvaluator =>
          do ca <- getClientCA e (ReqPolicy req) ;;
          do valid <-
            wrapErr
              (fmt_Errorf_w "authorize: error validating client certificate: %w")
              (call (Call_isValidClientCertificate ca (clientCRL e)
                       (ClientCertificate (HTTP req))
                       (clientCertConstraints e))
                    (isValidClientCertificate ca (clientCRL e)
                       (ClientCertificate (HTTP req))
                       (clientCertConstraints e))) ;;
          let preq := {| PReqHTTP := HTTP req;
                         PReqSession := Session req;
                         IsValidClientCertificate := valid |} in
          call (Call_PolicyEvaluator_Evaluate policyEvaluator preq)
               (PolicyEvaluator_Evaluate policyEvaluator preq)
      end
  end.

(** The request handed to the headers evaluator. *)
Definition headersRequest (req : Request) : HeadersRequest :=
  let headersReq := NewHeadersRequestFromPolicy (ReqPolicy req) (HTTP req) in
  {| HReqFields := HReqFields headersReq; HReqSession := Session req |}.

Definition evaluateHeaders (e : Evaluator) (req : Request)
    : M HeadersResponse :=
  let headersReq := headersRequest req in
  do res <- call (Call_HeadersEvaluator_Evaluate (headersEvaluators e) headersReq)
                 (HeadersEvaluator_Evaluate (headersEvaluators e) headersReq) ;;
  ret {| HResHeaders :=
           carryOverJWTAssertion (HResHeaders res) (Headers (HTTP req)) |}.

(** *** The errgroup of [Evaluate]

    [Evaluate] starts two goroutines and waits for both.  [eg.Wait] returns
    the error of the goroutine that failed first; when both would fail, which
    one is first is decided by the scheduler, here by [first].  The context
    handed to the goroutines is cancelled at the first failure, which can
    only turn the later outcome into another error, never change which error
    [eg.Wait] reports, and never removes a call: the only calls that take the
    context are the last collaborator call of each goroutine. *)
Inductive Goroutine : Type := PolicyUnit | HeadersUnit.

Definition eg_Wait {A B} (first : Goroutine) (r1 : result A) (r2 : result B)
    : result (A * B) :=
  match r1, r2 with
  | Ok a, Ok b => Ok (a, b)
  | Err e1, Ok _ => Err e1
  | Ok _, Err e2 => Err e2
  | Err e1, Err e2 =>
      Err (match first with PolicyUnit => e1 | HeadersUnit => e2 end)
  end.

(** What one run of [Evaluate] does: the calls of each goroutine, in program
    order, and what [Evaluate] returns. *)
Record Run : Type := mkRun {
  policyCalls : list Call;
  headersCalls : list Call;
  outcome : result Result
}.

(** The first goroutine of [Evaluate]. *)
Definition policyUnit (e : Evaluator) (req : Request) : M PolicyResponse :=
  if IsInternal req then evaluateInternal e req else evaluatePolicy e req.

(** The second goroutine of [Evaluate]. *)
Definition headersUnit (e : Evaluator) (req : Request) : M HeadersResponse :=
  evaluateHeaders e req.

Definition Evaluate (first : Goroutine) (e : Evaluator) (req : Request) : Run :=
  let p := policyUnit e req in
  let h := headersUnit e req in
  {| policyCalls := calls p;
     headersCalls := calls h;
     outcome :=
       match eg_Wait first (returned p) (returned h) with
       | Err err => Err err
       | Ok (policyOutput, headersOutput) =>
           Ok {| Allow := PAllow policyOutput;
                 Deny := PDeny policyOutput;
                 ResHeaders := HResHeaders headersOutput;
                 Traces := PTraces policyOutput |}
       end |}.

(** *** Signing key and store *)

Definition getJWK (cfg : evaluatorConfig) : M JSONWebKey :=
  do decodedCert <-
    (if (String.length (cfg_signingKey cfg) =? 0)%nat then
       do key <- wrapErr (fmt_Errorf_w "couldn't generate signing key: %w")
                         (call Call_NewSigningKey NewSigningKey) ;;
       wrapErr (fmt_Errorf_w "bad signing key: %w")
               (call (Call_EncodePrivateKey key) (EncodePrivateKey key))
     else ret (cfg_signingKey cfg)) ;;
  wrapErr (fmt_Errorf_w "couldn't generate signing key: %w")
          (call (Call_PrivateJWKFromBytes decodedCert)
                (PrivateJWKFromBytes decodedCert)).

(** [updateStore] works on the store [e.store] points to: the calls made,
    the store afterwards and the error returned, if any. *)
Definition updateStore (cfg : evaluatorConfig) (store : Store)
    : list Call * Store * option error :=
  match getJWK cfg with
  | (l, Err err) =>
      (l, store, Some (fmt_Errorf_w "authorize: couldn't create signer: %w" err))
  | (l, Ok jwk) =>
      let store := UpdateGoogleCloudServerlessAuthenticationServiceAccount store
                     (cfg_googleCloudServerlessAuthenticationServiceAccount cfg) in
      let store := UpdateJWTClaimHeaders store (cfg_jwtClaimsHeaders cfg) in
      let store := UpdateRoutePolicies store (cfg_policies cfg) in
      let store := UpdateSigningKey store jwk in
      (l, store, None)
  end.

(** The loop of [New] over [cfg.policies]. *)
Fixpoint newPolicyEvaluators (store : Store) (cfg : evaluatorConfig)
    (policies : list Policy) (acc : gmap N PolicyEvaluator)
    : M (gmap N PolicyEvaluator) :=
  match policies with
  | [] => ret acc
  | configPolicy :: rest =>
      do id <- wrapErr
                 (fmt_Errorf_w "authorize: error computing policy route id: %w")
                 (call (Call_RouteID configPolicy) (RouteID configPolicy)) ;;
      do policyEvaluator <-
        call (Call_NewPolicyEvaluator configPolicy
                (cfg_addDefaultClientCertificateRule cfg))
             (NewPolicyEvaluator store configPolicy
                (cfg_addDefaultClientCertificateRule cfg)) ;;
      newPolicyEvaluators store cfg rest (<[id := policyEvaluator]> acc)
  end.

(** [New] creates a new [Evaluator]: the calls made, the store afterwards
    and the evaluator or the error. *)
Definition New (store : Store) (options : list Option)
    : list Call * Store * result Evaluator :=
  let cfg := getConfig options in
  match updateStore cfg store with
  | (l, store, Some err) => (l, store, Err err)
  | (l, store, None) =>
      let m :=
        do he <- call Call_NewHeadersEvaluator (NewHeadersEvaluator store) ;;
        do pes <- newPolicyEvaluators store cfg (cfg_policies cfg) ∅ ;;
        ret {| policyEvaluators := pes;
               headersEvaluators := he;
               clientCA := cfg_clientCA cfg;
               clientCRL := cfg_clientCRL cfg;
               clientCertConstraints := cfg_clientCertConstraints cfg |} in
      (l ++ calls m, store, returned m)
  end.

(** *** The boundary around the rule engine *)

Definition safeEval (q : PreparedEvalQuery) (options : list EvalOption)
    : Outcome (ResultSet * option error) :=
  defer_recover (ResultSet_nil, None)
    (rego_Eval q options)
    (fun e '(resultSet, err) =>
       match e with
       | Some v => (resultSet, Some (fmt_Errorf_v "%v" v))
       | None => (resultSet, err)
       end).

End Evaluator.

(** ** What the claims talk about *)

Section Vocabulary.
Context {T : Types} {C : Collaborators}.

(** No matching route: the policy is absent, or its route id is computed and
    no [PolicyEvaluator] is registered under it. *)
Definition route_not_found (e : Evaluator) (req : Request) : Prop :=
  ReqPolicy req = None \/
  exists p id, ReqPolicy req = Some p /\ RouteID p = Ok id /\
               policyEvaluators e !! id = None.

(** The request's policy is registered under its route id as [pe]. *)
Definition registered (e : Evaluator) (req : Request) (p : Policy)
    (pe : PolicyEvaluator) : Prop :=
  ReqPolicy req = Some p /\
  exists id, RouteID p = Ok id /\ policyEvaluators e !! id = Some pe.

Definition denyRouteNotFound : PolicyResponse :=
  {| PAllow := RuleResult_zero;
     PDeny := NewRuleResult true [ReasonRouteNotFound];
     PTraces := [] |}.

Definition allowInternal (value : bool) (reason : Reason) : PolicyResponse :=
  {| PAllow := NewRuleResult value [reason];
     PDeny := RuleResult_zero;
     PTraces := [] |}.

(** The run merges the policy decision [po] with whatever the headers unit
    returned: a [Result] when the headers unit succeeded, its error
    otherwise. *)
Definition merges (run : Run) (po : PolicyResponse)
    (h : result HeadersResponse) : Prop :=
  match h with
  | Ok ho =>
      outcome run = Ok {| Allow := PAllow po;
                          Deny := PDeny po;
                          ResHeaders := HResHeaders ho;
                          Traces := PTraces po |}
  | Err err => outcome run = Err err
  end.

Definition all_calls (run : Run) : list Call :=
  policyCalls run ++ headersCalls run.

Definition validations (l : list Call) : list Call :=
  List.filter is_certificate_validation l.

Definition rule_evaluations (l : list Call) : list Call :=
  List.filter is_rule_evaluation l.

(** The inbound headers [carryOverJWTAssertion] looks up, and the outbound
    header under which [Header_Add] stores the carried-over assertion. *)
Definition inboundAssertionFor : string :=
  CanonicalHeaderKey HeaderPomeriumJWTAssertionFor.

Definition inboundAssertion : string :=
  CanonicalHeaderKey HeaderPomeriumJWTAssertion.

Definition outboundAssertionFor : string :=
  CanonicalMIMEHeaderKey inboundAssertionFor.

(** The two internal endpoints that require a logged-in user. *)
Definition reserved_path (path : string) : Prop :=
  path = "/.pomerium/webauthn" \/ path = "/.pomerium/jwt".

(** An inbound header is absent or empty. *)
Definition no_value (src : gmap string string) (k : string) : Prop :=
  src !! k = None \/ src !! k = Some "".

End Vocabulary.

(** ** A concrete deployment

    Small collaborators on which the embedding runs: route ids are lengths
    of the route's host, a certificate is valid when its leaf names the CA,
    and a policy evaluator denies invalid certificates only when it was built
    with the default rule. *)

Module Testbed.

Record policy : Type := mkPolicy {
  from : string;
  downstreamCA : string
}.

Record policyEvaluator : Type := mkPolicyEvaluator {
  defaultClientCertificateRule : bool;
  tracing : bool
}.

Inductive query : Type :=
| QueryFine
| QueryError
| QueryPanic
| QueryPanicNil
| QueryGoexit.

#[global] Instance types : Types := {|
  Policy := policy;
  JWTClaimHeaders := list (string * string);
  JWTClaimHeaders_zero := [];
  ClientCertConstraints := list string;
  ClientCertConstraints_zero := [];
  PolicyEvaluator := policyEvaluator;
  HeadersEvaluator := bool;
  HeadersRequestFields := string;
  PolicyEvaluationTrace := string;
  JSONWebKey := string;
  PrivateKey := string;
  PreparedEvalQuery := query;
  EvalOption := unit;
  ResultSet := list string;
  ResultSet_nil := []
|}.

Definition upper (c : ascii) : ascii :=
  let n := nat_of_ascii c in
  if (97 <=? n)%nat && (n <=? 122)%nat then ascii_of_nat (n - 32) else c.

Definition lower (c : ascii) : ascii :=
  let n := nat_of_ascii c in
  if (65 <=? n)%nat && (n <=? 90)%nat then ascii_of_nat (n + 32) else c.

(** Canonical form of a header key made of letters, digits and hyphens:
    the first letter and every letter after a hyphen in upper case, the
    others in lower case. *)
Fixpoint canonical (up : bool) (s : string) : string :=
  match s with
  | EmptyString => EmptyString
  | String c r =>
      String (if up then upper c else lower c)
             (canonical (Ascii.eqb c "-"%char) r)
  end.

Definition routeID (p : policy) : result N :=
  if (from p =? "")%string then Err (errors_New "policy: empty from")
  else Ok (N.of_nat (String.length (from p))).

Definition decodeString (s : string) : result bytes :=
  if (s =? "cm91dGUtY2E=")%string then Ok "route-ca"
  else Err (errors_New "illegal base64 data").

Definition validate (ca crl : string) (info : ClientCertificateInfo)
    (constraints : list string) : result bool :=
  if negb (Presented info) then Ok false
  else if (Leaf info =? "garbage")%string then
    Err (errors_New "x509: malformed certificate")
  else Ok ((Leaf info =? "issued-by:" +:+ ca)%string
           && negb (Leaf info =? crl)%string).

Definition evaluateRules (pe : policyEvaluator) (req : PolicyRequest)
    : result PolicyResponse :=
  if (Method (PReqHTTP req) =? "TRACE")%string then
    Err (errors_New "rego: eval fault")
  else
    Ok {| PAllow := NewRuleResult true [ReasonOther "accept"];
          PDeny :=
            if defaultClientCertificateRule pe
               && negb (IsValidClientCertificate req)
            then NewRuleResult true [ReasonInvalidClientCertificate]
            else RuleResult_zero;
          PTraces := if tracing pe then ["accept"] else [] |}.

Definition evaluateIdentityHeaders (working : bool) (req : HeadersRequest)
    : result HeadersResponse :=
  if working then
    Ok {| HResHeaders :=
            {[ "X-Pomerium-Jwt-Assertion" :=
                 ["signed:" +:+ ID (HReqSession req)] ]} |}
  else Err (errors_New "headers: eval fault").

Definition eval (q : query) (options : list unit)
    : Outcome (list string * option error) :=
  match q with
  | QueryFine => Returns (["allow"], None)
  | QueryError => Returns ([], Some (errors_New "rego: undefined function"))
  | QueryPanic => Panics (Some (any_runtime_error "index out of range"))
  | QueryPanicNil => Panics None
  | QueryGoexit => Goexits
  end.

#[global] Instance collaborators : Collaborators := {|
  TLSDownstreamClientCA := downstreamCA;
  RouteID := routeID;
  base64_DecodeString := decodeString;
  isValidClientCertificate := validate;
  PolicyEvaluator_Evaluate := evaluateRules;
  HeadersEvaluator_Evaluate := evaluateIdentityHeaders;
  NewHeadersRequestFromPolicy := fun _ http =>
    {| HReqFields := Hostname http; HReqSession := {| ID := "" |} |};
  NewHeadersEvaluator := fun store =>
    match SigningKey store with
    | Some _ => Ok true
    | None => Err (errors_New "headers: no signing key")
    end;
  NewPolicyEvaluator := fun _ _ rule =>
    Ok {| defaultClientCertificateRule := rule; tracing := true |};
  NewSigningKey := Ok "generated";
  EncodePrivateKey := fun key => Ok ("pem:" +:+ key);
  PrivateJWKFromBytes := fun bs =>
    if String.prefix "pem:" bs then Ok ("jwk:" +:+ bs)
    else Err (errors_New "jwk: no private key");
  HeaderPomeriumJWTAssertion := "x-pomerium-jwt-assertion";
  HeaderPomeriumJWTAssertionFor := "x-pomerium-jwt-assertion-for";
  CanonicalHeaderKey := canonical true;
  CanonicalMIMEHeaderKey := canonical true;
  rego_Eval := eval
|}.

Definition app : policy := {| from := "app.example.com"; downstreamCA := "" |}.

Definition appWithCA : policy :=
  {| from := "app.example.com"; downstreamCA := "cm91dGUtY2E=" |}.

Definition appBadCA : policy :=
  {| from := "app.example.com"; downstreamCA := "not base64!" |}.

Definition unknown : policy := {| from := "other.example"; downstreamCA := "" |}.

Definition broken : policy := {| from := ""; downstreamCA := "" |}.

(** An evaluator with one route, [app], with or without the default rule
    on invalid client certificates, and a headers evaluator that works or
    not. *)
Definition evaluator (rule headers : bool) : Evaluator :=
  {| policyEvaluators :=
       {[ 15%N := {| defaultClientCertificateRule := rule; tracing := true |} ]};
     headersEvaluators := headers;
     clientCA := "global-ca";
     clientCRL := "";
     clientCertConstraints := [] |}.

Definition noCertificate : ClientCertificateInfo :=
  {| Presented := false; Leaf := ""; Intermediates := "" |}.

Definition certificate (leaf : string) : ClientCertificateInfo :=
  {| Presented := true; Leaf := leaf; Intermediates := "" |}.

Definition http (path : string) (headers : gmap string string)
    (cert : ClientCertificateInfo) : RequestHTTP :=
  {| Method := "GET";
     Hostname := "app.example.com";
     Path := path;
     URL := "https://app.example.com" +:+ path;
     Headers := headers;
     ClientCertificate := cert;
     IP := "10.0.0.1" |}.

Definition request (internal : bool) (p : option policy) (path sid : string)
    (cert : ClientCertificateInfo) : Request :=
  {| IsInternal := internal;
     ReqPolicy := p;
     HTTP := http path ∅ cert;
     Session := {| ID := sid |} |}.

(** What the collaborators above answer. *)
Definition signedHeaders (sid : string) : HeadersResponse :=
  {| HResHeaders := {[ "X-Pomerium-Jwt-Assertion" := ["signed:" +:+ sid] ]} |}.

Definition accepted (deny : RuleResult) : PolicyResponse :=
  {| PAllow := NewRuleResult true [ReasonOther "accept"];
     PDeny := deny;
     PTraces := ["accept"] |}.

Definition emptyStore : Store :=
  {| GoogleCloudServerlessAuthenticationServiceAccount := "";
     StoreJWTClaimHeaders := [];
     RoutePolicies := [];
     SigningKey := None |}.

Definition liveStore : Store :=
  {| GoogleCloudServerlessAuthenticationServiceAccount := "svc";
     StoreJWTClaimHeaders := [("email", "X-Email")];
     RoutePolicies := [app];
     SigningKey := Some "jwk:pem:old" |}.

End Testbed.

(** ** The options of config.go, by the field they set *)

Inductive Field : Type :=
| FieldPolicies
| FieldClientCA
| FieldClientCRL
| FieldAddDefaultClientCertificateRule
| FieldClientCertConstraints
| FieldSigningKey
| FieldAuthenticateURL
| FieldGoogleCloudServerlessAuthenticationServiceAccount
| FieldJWTClaimsHeaders.

Section Settings.
Context {T : Types}.

(** One constructor per [With...] function of config.go. *)
Inductive Setting : Type :=
| SetPolicies (policies : list Policy)
| SetClientCA (clientCA : bytes)
| SetClientCRL (clientCRL : bytes)
| SetAddDefaultClientCertificateRule (addDefaultClientCertificateRule : bool)
| SetClientCertConstraints (constraints : ClientCertConstraints)
| SetSigningKey (signingKey : bytes)
| SetAuthenticateURL (authenticateURL : string)
| SetGoogleCloudServerlessAuthenticationServiceAccount (serviceAccount : string)
| SetJWTClaimsHeaders (headers : JWTClaimHeaders).

Definition option_of (s : Setting) : Option :=
  match s with
  | SetPolicies policies => WithPolicies policies
  | SetClientCA clientCA => WithClientCA clientCA
  | SetClientCRL clientCRL => WithClientCRL clientCRL
  | SetAddDefaultClientCertificateRule rule =>
      WithAddDefaultClientCertificateRule rule
  | SetClientCertConstraints constraints =>
      WithClientCertConstraints constraints
  | SetSigningKey signingKey => WithSigningKey signingKey
  | SetAuthenticateURL authenticateURL => WithAuthenticateURL authenticateURL
  | SetGoogleCloudServerlessAuthenticationServiceAccount serviceAccount =>
      WithGoogleCloudServerlessAuthenticationServiceAccount serviceAccount
  | SetJWTClaimsHeaders headers => WithJWTClaimsHeaders headers
  end.

Definition field_of (s : Setting) : Field :=
  match s with
  | SetPolicies _ => FieldPolicies
  | SetClientCA _ => FieldClientCA
  | SetClientCRL _ => FieldClientCRL
  | SetAddDefaultClientCertificateRule _ =>
      FieldAddDefaultClientCertificateRule
  | SetClientCertConstraints _ => FieldClientCertConstraints
  | SetSigningKey _ => FieldSigningKey
  | SetAuthenticateURL _ => FieldAuthenticateURL
  | SetGoogleCloudServerlessAuthenticationServiceAccount _ =>
      FieldGoogleCloudServerlessAuthenticationServiceAccount
  | SetJWTClaimsHeaders _ => FieldJWTClaimsHeaders
  end.

End Settings.

(** ** Construction, seen from its result *)

Section Construction.
Context {T : Types} {C : Collaborators}.

(** The store [updateStore] leaves behind when the signing key is [jwk]. *)
Definition updatedStore (cfg : evaluatorConfig) (store : Store)
    (jwk : JSONWebKey) : Store :=
  UpdateSigningKey
    (UpdateRoutePolicies
       (UpdateJWTClaimHeaders
          (UpdateGoogleCloudServerlessAuthenticationServiceAccount store
             (cfg_googleCloudServerlessAuthenticationServiceAccount cfg))
          (cfg_jwtClaimsHeaders cfg))
       (cfg_policies cfg))
    jwk.

(** A policy for which the loop of [New] gets a route id and a policy
    evaluator. *)
Definition buildable (store : Store) (cfg : evaluatorConfig) (p : Policy)
    : Prop :=
  exists id pe,
    RouteID p = Ok id /\
    NewPolicyEvaluator store p (cfg_addDefaultClientCertificateRule cfg) =
      Ok pe.

(** [p] is built into [pe] under route id [id]. *)
Definition builds (store : Store) (cfg : evaluatorConfig) (p : Policy)
    (id : N) (pe : PolicyEvaluator) : Prop :=
  RouteID p = Ok id /\
  NewPolicyEvaluator store p (cfg_addDefaultClientCertificateRule cfg) = Ok pe.

(** What [New] returned: the calls, the store and the evaluator or error. *)
Definition New_calls (r : list Call * Store * result Evaluator) : list Call :=
  fst (fst r).
Definition New_store (r : list Call * Store * result Evaluator) : Store :=
  snd (fst r).
Definition New_returned (r : list Call * Store * result Evaluator)
    : result Evaluator :=
  snd r.

End Construction.

(** ** proxy.go *)

Module proxy.

(** Log levels of the two log calls the file makes. *)
Inductive Level : Type := LevelWarn | LevelError.

Class Types : Type := {
  (** [config.Options], [config.Config] and [config.Policy] *)
  Options : Type;
  Config : Type;
  ConfigPolicy : Type;
  (** [proxyState], declared in another file of the package *)
  proxyState : Type;
  (** [mux.Router] and [webauthn.Handler] *)
  Router : Type;
  WebauthnHandler : Type;
  (** [cipher.AEAD] *)
  AEAD : Type;
  (** an HTTP exchange: the request and what is written to the response *)
  HTTPRequest : Type;
  HTTPResponse : Type
}.

Section Embedding.
Context {PT : Types}.

(** [Proxy] stores all the information associated with proxying a request:
    the current contents of its three atomic values and the webauthn
    handler. *)
Record Proxy : Type := mkProxy {
  state : proxyState;
  currentOptions : Options;
  currentRouter : Router;
  webauthn : WebauthnHandler
}.

Class Collaborators : Type := {
  (** package config *)
  Config_Options : Config -> Options;
  GetSharedKey : Options -> result bytes;
  GetCookieSecret : Options -> result bytes;
  GetAllPolicies : Options -> list ConfigPolicy;
  NewAtomicOptions : Options;
  (** package cryptutil *)
  NewAEADCipher : bytes -> result AEAD;
  (** package proxy, other files; [registerDashboardHandlers] is a method of
      the proxy and gets its receiver as it is when the method is called *)
  newProxyStateFromConfig : Config -> result proxyState;
  registerDashboardHandlers : Proxy -> Router -> Router;
  (** package httputil and gorilla/mux: a new router, and the router after
      the not-found handler, [SkipClean(true)], [StrictSlash(true)] and the
      robots.txt route for GET, handled by the [RobotsTxt] of the given
      proxy, have been set on it.  The handlers of a router are methods of
      the proxy that built it; they read the proxy through its pointer, so
      serving takes the proxy as it is at that time *)
  NewRouter : Router;
  withBaseHandlers : Proxy -> Router -> Router;
  Router_ServeHTTP : Router -> Proxy -> HTTPRequest -> HTTPResponse;
  (** package webauthn: the handler built over the proxy's state getter *)
  webauthn_New : WebauthnHandler
}.

Context {PC : Collaborators}.

(** What the functions of the file do besides updating the proxy. *)
Inductive Event : Type :=
| Ev_GetSharedKey
| Ev_GetCookieSecret
| Ev_NewAEADCipher (key : bytes)
| Ev_newProxyStateFromConfig (cfg : Config)
| Ev_AddPolicyCountCallback (name : string)
| Ev_log (level : Level) (err : option error) (msg : string).

(** [ValidateOptions] checks that proper configuration settings are set to
    create a proper Proxy instance: the events and the error, if any. *)
Definition ValidateOptions (o : Options) : list Event * option error :=
  match GetSharedKey o with
  | Err err =>
      ([Ev_GetSharedKey],
       Some (fmt_Errorf_w "proxy: invalid 'SHARED_SECRET': %w" err))
  | Ok sharedKey =>
      match NewAEADCipher sharedKey with
      | Err err =>
          ([Ev_GetSharedKey; Ev_NewAEADCipher sharedKey],
           Some (fmt_Errorf_w "proxy: invalid 'SHARED_SECRET': %w" err))
      | Ok _ =>
          match GetCookieSecret o with
          | Err err =>
              ([Ev_GetSharedKey; Ev_NewAEADCipher sharedKey;
                Ev_GetCookieSecret],
               Some (fmt_Errorf_w "proxy: invalid 'COOKIE_SECRET': %w" err))
          | Ok cookieSecret =>
              match NewAEADCipher cookieSecret with
              | Err err =>
                  ([Ev_GetSharedKey; Ev_NewAEADCipher sharedKey;
                    Ev_GetCookieSecret; Ev_NewAEADCipher cookieSecret],
                   Some (fmt_Errorf_w
                           "proxy: invalid 'COOKIE_SECRET': %w" err))
              | Ok _ =>
                  ([Ev_GetSharedKey; Ev_NewAEADCipher sharedKey;
                    Ev_GetCookieSecret; Ev_NewAEADCipher cookieSecret],
                   None)
              end
          end
      end
  end.

(** [New] takes a Proxy service from options. *)
Definition New (cfg : Config) : list Event * result Proxy :=
  match newProxyStateFromConfig cfg with
  | Err err => ([Ev_newProxyStateFromConfig cfg], Err err)
  | Ok st =>
      ([Ev_newProxyStateFromConfig cfg;
        Ev_AddPolicyCountCallback "pomerium-proxy"],
       Ok {| state := st;
             currentOptions := NewAtomicOptions;
             currentRouter := NewRouter;
             webauthn := webauthn_New |})
  end.

(** The callback [New] registers with the metrics package, evaluated on the
    proxy as it is when the callback runs. *)
Definition policyCount (p : Proxy) : nat :=
  length (GetAllPolicies (currentOptions p)).

Definition setHandlers (p : Proxy) (opts : Options)
    : list Event * Proxy * option error :=
  let warn :=
    if (length (GetAllPolicies opts) =? 0)%nat then
      [Ev_log LevelWarn None "proxy: configuration has no policies"]
    else [] in
  let r := withBaseHandlers p NewRouter in
  (* dashboard handlers are registered to all routes *)
  let r := registerDashboardHandlers p r in
  (warn,
   {| state := state p;
      currentOptions := currentOptions p;
      currentRouter := r;
      webauthn := webauthn p |},
   None).

(** [OnConfigChange] updates internal structures based on config.Options;
    the receiver may be nil, which is [None]. *)
Definition OnConfigChange (p : option Proxy) (cfg : Config)
    : list Event * option Proxy :=
  match p with
  | None => ([], None)
  | Some p =>
      let p := {| state := state p;
                  currentOptions := Config_Options cfg;
                  currentRouter := currentRouter p;
                  webauthn := webauthn p |} in
      let '(l1, p, err) := setHandlers p (Config_Options cfg) in
      let l2 :=
        match err with
        | Some err =>
            [Ev_log LevelError (Some err)
               "proxy: failed to update proxy handlers from configuration settings"]
        | None => []
        end in
      match newProxyStateFromConfig cfg with
      | Err err =>
          (l1 ++ l2 ++
             [Ev_newProxyStateFromConfig cfg;
              Ev_log LevelError (Some err)
                "proxy: failed to update proxy state from configuration settings"],
           Some p)
      | Ok st =>
          (l1 ++ l2 ++ [Ev_newProxyStateFromConfig cfg],
           Some {| state := st;
                   currentOptions := currentOptions p;
                   currentRouter := currentRouter p;
                   webauthn := webauthn p |})
      end
  end.

Definition ServeHTTP (p : Proxy) (r : HTTPRequest) : HTTPResponse :=
  Router_ServeHTTP (currentRouter p) p r.

(** The proxy after [p.currentOptions.Store(opts)]. *)
Definition storeOptions (p : Proxy) (opts : Options) : Proxy :=
  {| state := state p;
     currentOptions := opts;
     currentRouter := currentRouter p;
     webauthn := webauthn p |}.

Definition is_error_log (e : Event) : bool :=
  match e with Ev_log LevelError _ _ => true | _ => false end.

Definition inspects_cookie_secret (e : Event) : bool :=
  match e with Ev_GetCookieSecret => true | _ => false end.

End Embedding.

(** A deployment of the proxy: secrets are valid when 32 bytes long, and
    the state is built from the shared secret. *)
Module Testbed.

Record options : Type := mkOptions {
  sharedSecret : string;
  cookieSecret : string;
  routes : list string
}.

#[global] Instance types : Types := {|
  Options := options;
  Config := options;
  ConfigPolicy := string;
  proxyState := string;
  Router := list string;
  WebauthnHandler := unit;
  AEAD := string;
  HTTPRequest := string;
  HTTPResponse := bool
|}.

Definition secret (name s : string) : result bytes :=
  if (s =? "")%string then Err (errors_New (name +:+ " is required"))
  else Ok s.

Definition cipher (key : bytes) : result string :=
  if (String.length key =? 32)%nat then Ok key
  else Err (errors_New "chacha20poly1305: bad key length").

#[global] Instance collaborators : Collaborators := {|
  Config_Options := fun cfg => cfg;
  GetSharedKey := fun o => secret "shared secret" (sharedSecret o);
  GetCookieSecret := fun o => secret "cookie secret" (cookieSecret o);
  GetAllPolicies := routes;
  NewAtomicOptions :=
    {| sharedSecret := ""; cookieSecret := ""; routes := [] |};
  NewAEADCipher := cipher;
  newProxyStateFromConfig := fun cfg =>
    match cipher (sharedSecret cfg) with
    | Ok key => Ok ("state:" +:+ key)
    | Err err => Err err
    end;
  registerDashboardHandlers := fun p r =>
    r ++ ["/.pomerium"] ++
    (if (String.length (sharedSecret (currentOptions p)) =? 32)%nat
     then ["/.pomerium/jwt"] else []);
  NewRouter := [];
  withBaseHandlers := fun _ r => r ++ ["/robots.txt"];
  Router_ServeHTTP := fun r p path =>
    bool_decide (path ∈ r) && negb (state p =? "")%string;
  webauthn_New := tt
|}.

Definition key32 : string := "0123456789abcdef0123456789abcdef".

Definition good : options :=
  {| sharedSecret := key32; cookieSecret := key32; routes := ["app"] |}.

Definition badShared : options :=
  {| sharedSecret := "short"; cookieSecret := ""; routes := [] |}.

Definition badCookie : options :=
  {| sharedSecret := key32; cookieSecret := "short"; routes := ["app"] |}.

(** A proxy in service, and the same proxy after a change to [badShared]. *)
Definition running : Proxy :=
  {| state := "state:old";
     currentOptions := good;
     currentRouter := [];
     webauthn := tt |}.

Definition afterBadChange : Proxy :=
  {| state := "state:old";
     currentOptions := badShared;
     currentRouter := ["/robots.txt"; "/.pomerium"];
     webauthn := tt |}.

End Testbed.

End proxy.

(** ** Configurations of the concrete deployment *)

Module Configurations.

(** One route, certificates checked against the global CA. *)
Definition oneRoute : list (Option (T := Testbed.types)) :=
  [WithPolicies [Testbed.app]; WithClientCA "global-ca"].

(** Two policies with the same route id, and the default rule on invalid
    client certificates. *)
Definition sameRouteTwice : list (Option (T := Testbed.types)) :=
  [WithPolicies [Testbed.app; Testbed.appWithCA];
   WithClientCA "global-ca";
   WithAddDefaultClientCertificateRule true].

(** A policy whose route id cannot be computed, after one that is fine. *)
Definition oneBroken : list (Option (T := Testbed.types)) :=
  [WithPolicies [Testbed.app; Testbed.broken]].

(** A signing key that is no private key. *)
Definition badKey : list (Option (T := Testbed.types)) :=
  [WithClientCA "ca"; WithSigningKey "garbage"].

Definition settings : list (Setting (T := Testbed.types)) :=
  [SetPolicies [Testbed.app]; SetClientCA "global-ca"].

End Configurations.

(** ** The evaluation boundary of a policy evaluator *)

Section EvaluationBoundary.
Context {T : Types} {C : Collaborators}.

(** What the spec leaves open about the evaluation of a policy's rules: the
    query an evaluator was prepared with, the options that carry the
    request to the engine, the wrapping of a fault into an EvaluationFault
    and how a result set is read. *)
Class Boundary : Type := {
  queryOf : PolicyEvaluator -> PreparedEvalQuery;
  inputOf : PolicyRequest -> list EvalOption;
  EvaluationFault : error -> error;
  responseOf :
    PolicyEvaluator -> PolicyRequest -> ResultSet -> result PolicyResponse
}.

Context {B : Boundary}.

(** Modelled from the spec: [PolicyEvaluator.Evaluate], whose file is not
    among the sources.  By sections 4.2, 7 and 9 of the spec every call into
    the rule engine goes through the boundary, which is [safeEval]; a fault
    the boundary reports is returned, wrapped as an EvaluationFault, as the
    error of the evaluation; otherwise the response is read off the result
    set. *)
Definition evaluateThroughBoundary (pe : PolicyEvaluator) (req : PolicyRequest)
    : Outcome (result PolicyResponse) :=
  match safeEval (queryOf pe) (inputOf req) with
  | Returns (resultSet, Some err) => Returns (Err (EvaluationFault err))
  | Returns (resultSet, None) => Returns (responseOf pe req resultSet)
  | Panics v => Panics v
  | Goexits => Goexits
  end.



End EvaluationBoundary.

(** The concrete deployment with policy evaluators that evaluate through
    the boundary; the two flags of an evaluator select its prepared query. *)
Module Engine.

#[global] Instance boundary : Boundary (T := Testbed.types) := {|
  queryOf := fun pe =>
    match Testbed.defaultClientCertificateRule pe, Testbed.tracing pe with
    | true, true => Testbed.QueryFine
    | true, false => Testbed.QueryError
    | false, true => Testbed.QueryPanic
    | false, false => Testbed.QueryPanicNil
    end;
  inputOf := fun _ => [];
  EvaluationFault := fmt_Errorf_w "authorize: evaluation fault: %w";
  responseOf := fun _ _ resultSet =>
    Ok {| PAllow :=
            NewRuleResult (bool_decide ("allow" ∈ resultSet))
              [ReasonOther "accept"];
          PDeny := RuleResult_zero;
          PTraces := [] |}
|}.

Definition collaborators : Collaborators (T := Testbed.types) := {|
  TLSDownstreamClientCA := Testbed.downstreamCA;
  RouteID := Testbed.routeID;
  base64_DecodeString := Testbed.decodeString;
  isValidClientCertificate := Testbed.validate;
  PolicyEvaluator_Evaluate := fun pe req =>
    match evaluateThroughBoundary (C := Testbed.collaborators) pe req with
    | Returns r => r
    | _ => Err (errors_New "authorize: evaluation did not return")
    end;
  HeadersEvaluator_Evaluate := Testbed.evaluateIdentityHeaders;
  NewHeadersRequestFromPolicy :=
    NewHeadersRequestFromPolicy (Collaborators := Testbed.collaborators);
  NewHeadersEvaluator :=
    NewHeadersEvaluator (Collaborators := Testbed.collaborators);
  NewPolicyEvaluator :=
    NewPolicyEvaluator (Collaborators := Testbed.collaborators);
  NewSigningKey := NewSigningKey (Collaborators := Testbed.collaborators);
  EncodePrivateKey := EncodePrivateKey (Collaborators := Testbed.collaborators);
  PrivateJWKFromBytes :=
    PrivateJWKFromBytes (Collaborators := Testbed.collaborators);
  HeaderPomeriumJWTAssertion := "x-pomerium-jwt-assertion";
  HeaderPomeriumJWTAssertionFor := "x-pomerium-jwt-assertion-for";
  CanonicalHeaderKey := Testbed.canonical true;
  CanonicalMIMEHeaderKey := Testbed.canonical true;
  rego_Eval := Testbed.eval
|}.


End Engine.

(** * Properties *)

(** ** The logging monad *)

Section MonadFacts.
Context {T : Types} {C : Collaborators}.

Lemma bind_call_Ok {A B} (c : Call) (r : result A) (a : A) (k : A -> M B) :
  r = Ok a -> bind (call c r) k = (c :: calls (k a), returned (k a)).
Proof. intros ->. unfold bind, call, calls, returned. now destruct (k a). Qed.

Lemma bind_call_Err {A B} (c : Call) (r : result A) (err : error)
    (k : A -> M B) :
  r = Err err -> bind (call c r) k = ([c], Err err).
Proof. now intros ->. Qed.

Lemma bind_wrapped_call_Ok {A B} (w : error -> error) (c : Call)
    (r : result A) (a : A) (k : A -> M B) :
  r = Ok a -> bind (wrapErr w (call c r)) k = (c :: calls (k a), returned (k a)).
Proof. intros ->. unfold bind, call, calls, returned. simpl. now destruct (k a). Qed.

Lemma bind_wrapped_call_Err {A B} (w : error -> error) (c : Call)
    (r : result A) (err : error) (k : A -> M B) :
  r = Err err -> bind (wrapErr w (call c r)) k = ([c], Err (w err)).
Proof. now intros ->. Qed.

Lemma bind_ret {A B} (a : A) (k : A -> M B) : bind (ret a) k = k a.
Proof. unfold bind, ret. now destruct (k a). Qed.

Lemma M_eta {A} (m : M A) : m = (calls m, returned m).
Proof. now destruct m. Qed.

End MonadFacts.

(** ** The policy unit, case by case *)

Section PolicyUnitFacts.
Context {T : Types} {C : Collaborators}.
Implicit Types (e : Evaluator) (req : Request).

Lemma evaluateInternal_no_calls e req : calls (evaluateInternal e req) = [].
Proof.
  unfold evaluateInternal.
  destruct (_ || _); [destruct (_ =? _)%string |]; reflexivity.
Qed.

Lemma evaluatePolicy_no_policy e req :
  ReqPolicy req = None -> evaluatePolicy e req = ([], Ok denyRouteNotFound).
Proof. unfold evaluatePolicy. now intros ->. Qed.

Lemma evaluatePolicy_RouteID_fails e req p err :
  ReqPolicy req = Some p -> RouteID p = Err err ->
  evaluatePolicy e req =
    ([Call_RouteID p],
     Err (fmt_Errorf_w "authorize: error computing policy route id: %w" err)).
Proof.
  unfold evaluatePolicy. intros -> Hid.
  now rewrite (bind_wrapped_call_Err _ _ _ err).
Qed.

Lemma evaluatePolicy_unregistered e req p id :
  ReqPolicy req = Some p -> RouteID p = Ok id ->
  policyEvaluators e !! id = None ->
  evaluatePolicy e req = ([Call_RouteID p], Ok denyRouteNotFound).
Proof.
  unfold evaluatePolicy. intros -> Hid Hpe.
  rewrite (bind_wrapped_call_Ok _ _ _ id) by assumption.
  now rewrite Hpe.
Qed.

Lemma evaluatePolicy_route_not_found e req :
  route_not_found e req ->
  returned (evaluatePolicy e req) = Ok denyRouteNotFound /\
  (calls (evaluatePolicy e req) = [] \/
   exists p, calls (evaluatePolicy e req) = [Call_RouteID p]).
Proof.
  intros [Hnone | (p & id & Hp & Hid & Hpe)].
  - rewrite evaluatePolicy_no_policy by assumption. auto.
  - rewrite (evaluatePolicy_unregistered e req p id) by assumption. eauto.
Qed.

(** With a registered policy the unit resolves the client CA, validates the
    certificate and hands the verdict to the policy evaluator. *)
Lemma evaluatePolicy_registered e req p pe :
  registered e req p pe ->
  evaluatePolicy e req =
    match getClientCA e (Some p) with
    | (l, Err err) => (Call_RouteID p :: l, Err err)
    | (l, Ok ca) =>
        let c := Call_isValidClientCertificate ca (clientCRL e)
                   (ClientCertificate (HTTP req)) (clientCertConstraints e) in
        match isValidClientCertificate ca (clientCRL e)
                (ClientCertificate (HTTP req)) (clientCertConstraints e) with
        | Err err =>
            (Call_RouteID p :: l ++ [c],
             Err (fmt_Errorf_w
                    "authorize: error validating client certificate: %w" err))
        | Ok valid =>
            let preq := {| PReqHTTP := HTTP req;
                           PReqSession := Session req;
                           IsValidClientCertificate := valid |} in
            (Call_RouteID p :: l ++
               [c; Call_PolicyEvaluator_Evaluate pe preq],
             PolicyEvaluator_Evaluate pe preq)
        end
    end.
Proof.
  intros (Hp & id & Hid & Hpe). unfold evaluatePolicy. rewrite Hp.
  rewrite (bind_wrapped_call_Ok _ _ _ id) by assumption.
  rewrite Hpe. unfold calls, returned.
  destruct (getClientCA e (Some p)) as [l [ca | err]]; simpl; [| reflexivity].
  destruct (isValidClientCertificate ca (clientCRL e)
              (ClientCertificate (HTTP req)) (clientCertConstraints e))
    as [valid | err]; simpl; reflexivity.
Qed.

Lemma getClientCA_calls e (policy : option Policy) :
  validations (calls (getClientCA e policy)) = [] /\
  rule_evaluations (calls (getClientCA e policy)) = [].
Proof.
  unfold getClientCA. destruct policy as [p |]; [| now split].
  destruct (negb _); [| now split].
  destruct (base64_DecodeString (TLSDownstreamClientCA p)); now split.
Qed.

Lemma evaluateHeaders_calls e req :
  calls (evaluateHeaders e req) =
    [Call_HeadersEvaluator_Evaluate (headersEvaluators e) (headersRequest req)].
Proof.
  unfold evaluateHeaders.
  now destruct (HeadersEvaluator_Evaluate (headersEvaluators e)
                  (headersRequest req)).
Qed.

Lemma evaluateHeaders_returned e req :
  returned (evaluateHeaders e req) =
    match HeadersEvaluator_Evaluate (headersEvaluators e) (headersRequest req) with
    | Ok res =>
        Ok {| HResHeaders :=
                carryOverJWTAssertion (HResHeaders res) (Headers (HTTP req)) |}
    | Err err => Err err
    end.
Proof.
  unfold evaluateHeaders.
  now destruct (HeadersEvaluator_Evaluate (headersEvaluators e)
                  (headersRequest req)).
Qed.

(** When the policy unit succeeds, [Evaluate] returns its decision merged
    with the headers, or the error of the headers unit. *)
Lemma Evaluate_merges first e req po :
  returned (policyUnit e req) = Ok po ->
  merges (Evaluate first e req) po (returned (headersUnit e req)).
Proof.
  intros Hp. unfold merges, Evaluate. simpl. rewrite Hp.
  now destruct (returned (headersUnit e req)).
Qed.

(** When the policy unit fails, [Evaluate] returns an error, whatever the
    headers unit does and whichever goroutine is first. *)
Lemma Evaluate_policy_error first e req err :
  returned (policyUnit e req) = Err err ->
  exists err', outcome (Evaluate first e req) = Err err'.
Proof.
  intros Hp. unfold Evaluate. simpl. rewrite Hp.
  destruct (returned (headersUnit e req)), first; simpl; eauto.
Qed.

Lemma Evaluate_policy_error_first first e req err :
  returned (policyUnit e req) = Err err ->
  first = PolicyUnit \/ is_Ok (returned (headersUnit e req)) = true ->
  outcome (Evaluate first e req) = Err err.
Proof.
  intros Hp Hfirst. unfold Evaluate. simpl. rewrite Hp.
  destruct (returned (headersUnit e req)), first; simpl in *;
    try reflexivity; destruct Hfirst; discriminate.
Qed.

End PolicyUnitFacts.

(** ** Requests without a matching route *)

Section RouteNotFound.
Context {T : Types} {C : Collaborators}.
Implicit Types (e : Evaluator) (req : Request).

Lemma route_not_found_calls first e req :
  IsInternal req = false -> route_not_found e req ->
  validations (all_calls (Evaluate first e req)) = [] /\
  rule_evaluations (all_calls (Evaluate first e req)) = [].
Proof.
  intros Hint Hnf. unfold all_calls, Evaluate, policyUnit, headersUnit.
  simpl. rewrite Hint, evaluateHeaders_calls.
  destruct (evaluatePolicy_route_not_found e req Hnf) as [_ [-> | [p ->]]];
    now split.
Qed.

(** C1 (amended): for a non-internal request whose policy is absent, or
    whose route id has no registered PolicyEvaluator, the policy unit yields
    Deny = (true, RouteNotFound) with Allow unset, and the request causes no
    client-certificate validation and no rule evaluation; Evaluate returns a
    Result with that Deny and Allow when the headers unit succeeds, and the
    error of the headers unit when it fails. *)
Theorem route_not_found_denies first e req :
  IsInternal req = false ->
  route_not_found e req ->
  returned (policyUnit e req) = Ok denyRouteNotFound /\
  validations (all_calls (Evaluate first e req)) = [] /\
  rule_evaluations (all_calls (Evaluate first e req)) = [] /\
  (forall ho, returned (headersUnit e req) = Ok ho ->
     outcome (Evaluate first e req) =
       Ok {| Allow := RuleResult_zero;
             Deny := NewRuleResult true [ReasonRouteNotFound];
             ResHeaders := HResHeaders ho;
             Traces := [] |}) /\
  (forall err, returned (headersUnit e req) = Err err ->
     outcome (Evaluate first e req) = Err err).
Proof.
  intros Hint Hnf.
  assert (Hp : returned (policyUnit e req) = Ok denyRouteNotFound).
  { unfold policyUnit. rewrite Hint.
    apply (evaluatePolicy_route_not_found e req Hnf). }
  pose proof (Evaluate_merges first e req _ Hp) as Hm.
  destruct (route_not_found_calls first e req Hint Hnf) as [Hv Hr].
  repeat split; try assumption.
  - intros ho Hh. rewrite Hh in Hm. exact Hm.
  - intros err Hh. rewrite Hh in Hm. exact Hm.
Qed.

End RouteNotFound.

(** The theorem at a request for a route that is not registered, and at a
    request without a policy. *)
Lemma route_not_found_denies_witness :
  route_not_found (Testbed.evaluator true true)
    (Testbed.request false (Some Testbed.unknown) "/" "s1" Testbed.noCertificate)
  /\
  outcome (Evaluate HeadersUnit (Testbed.evaluator true true)
             (Testbed.request false (Some Testbed.unknown) "/" "s1"
                Testbed.noCertificate)) =
    Ok {| Allow := RuleResult_zero;
          Deny := NewRuleResult true [ReasonRouteNotFound];
          ResHeaders := {[ "X-Pomerium-Jwt-Assertion" := ["signed:s1"] ]};
          Traces := [] |}.
Proof.
  assert (Hnf : route_not_found (Testbed.evaluator true true)
            (Testbed.request false (Some Testbed.unknown) "/" "s1"
               Testbed.noCertificate)).
  { right. exists Testbed.unknown, 13%N. repeat split; reflexivity. }
  split; [exact Hnf |].
  destruct (route_not_found_denies HeadersUnit (Testbed.evaluator true true)
              (Testbed.request false (Some Testbed.unknown) "/" "s1"
                 Testbed.noCertificate) eq_refl Hnf)
    as (_ & _ & _ & Hok & _).
  rewrite (Hok {| HResHeaders :=
                    {[ "X-Pomerium-Jwt-Assertion" := ["signed:s1"] ]} |})
    by (vm_compute; reflexivity).
  reflexivity.
Defined.

(** C1 as stated fails: a non-internal request without a policy for which
    the headers evaluator fails makes Evaluate return that error, and no
    Result with Deny = (true, RouteNotFound). *)
Lemma route_not_found_without_result :
  IsInternal (Testbed.request false None "/" "s1" Testbed.noCertificate) = false
  /\ ReqPolicy (Testbed.request false None "/" "s1" Testbed.noCertificate) = None
  /\ outcome (Evaluate PolicyUnit (Testbed.evaluator true false)
                (Testbed.request false None "/" "s1" Testbed.noCertificate)) =
       Err (errors_New "headers: eval fault")
  /\ ~ exists r,
         outcome (Evaluate PolicyUnit (Testbed.evaluator true false)
                    (Testbed.request false None "/" "s1"
                       Testbed.noCertificate)) = Ok r /\
         Deny r = NewRuleResult true [ReasonRouteNotFound] /\
         Allow r = RuleResult_zero.
Proof.
  repeat split; try reflexivity.
  intros (r & Hr & _). vm_compute in Hr. discriminate Hr.
Qed.

(** ** Internal requests *)

Section Internal.
Context {T : Types} {C : Collaborators}.
Implicit Types (e : Evaluator) (req : Request).

Lemma reserved_path_eqb path :
  reserved_path path <->
  (path =? "/.pomerium/webauthn")%string
  || (path =? "/.pomerium/jwt")%string = true.
Proof.
  unfold reserved_path.
  rewrite orb_true_iff, !String.eqb_eq. reflexivity.
Qed.

Lemma evaluateInternal_returned e req :
  exists po,
    returned (evaluateInternal e req) = Ok po /\
    (reserved_path (Path (HTTP req)) -> ID (Session req) = "" ->
       po = allowInternal false ReasonUserUnauthenticated) /\
    (reserved_path (Path (HTTP req)) -> ID (Session req) <> "" ->
       po = allowInternal true ReasonPomeriumRoute) /\
    (~ reserved_path (Path (HTTP req)) ->
       po = allowInternal true ReasonPomeriumRoute).
Proof.
  unfold evaluateInternal.
  pose proof (reserved_path_eqb (Path (HTTP req))) as Hres.
  destruct ((Path (HTTP req) =? "/.pomerium/webauthn")%string
            || (Path (HTTP req) =? "/.pomerium/jwt")%string);
    destruct (String.eqb_spec (ID (Session req)) "") as [Hsid | Hsid]; simpl;
    eexists; (split; [reflexivity |]);
    repeat split; intros; try reflexivity; exfalso; intuition congruence.
Qed.

(** C2 (amended): for an internal request the policy unit allows with reason
    PomeriumRoute, except on the WebAuthn and JWT endpoints with an empty
    session id, where it returns Allow = (false, UserUnauthenticated); it
    makes no call at all, so no rule engine is invoked; Evaluate returns a
    Result with that Allow (Deny unset) when the headers unit succeeds, and
    the error of the headers unit when it fails. *)
Theorem internal_requests first e req :
  IsInternal req = true ->
  exists po,
    returned (policyUnit e req) = Ok po /\
    (reserved_path (Path (HTTP req)) -> ID (Session req) = "" ->
       po = allowInternal false ReasonUserUnauthenticated) /\
    (reserved_path (Path (HTTP req)) -> ID (Session req) <> "" ->
       po = allowInternal true ReasonPomeriumRoute) /\
    (~ reserved_path (Path (HTTP req)) ->
       po = allowInternal true ReasonPomeriumRoute) /\
    policyCalls (Evaluate first e req) = [] /\
    rule_evaluations (all_calls (Evaluate first e req)) = [] /\
    (forall ho, returned (headersUnit e req) = Ok ho ->
       outcome (Evaluate first e req) =
         Ok {| Allow := PAllow po;
               Deny := RuleResult_zero;
               ResHeaders := HResHeaders ho;
               Traces := [] |}) /\
    (forall err, returned (headersUnit e req) = Err err ->
       outcome (Evaluate first e req) = Err err).
Proof.
  intros Hint.
  destruct (evaluateInternal_returned e req) as (po & Hpo & Hun & Hin & Hother).
  assert (Hp : returned (policyUnit e req) = Ok po).
  { unfold policyUnit. now rewrite Hint. }
  assert (Hcalls : policyCalls (Evaluate first e req) = []).
  { unfold Evaluate, policyUnit. simpl. rewrite Hint.
    apply evaluateInternal_no_calls. }
  assert (Hshape : PDeny po = RuleResult_zero /\ PTraces po = []).
  { revert Hpo. unfold evaluateInternal.
    destruct (_ || _); [destruct (_ =? _)%string |]; simpl;
      intros [= <-]; now split. }
  destruct Hshape as [Hdeny Htraces].
  pose proof (Evaluate_merges first e req _ Hp) as Hm.
  exists po. repeat split; try assumption.
  - unfold all_calls. rewrite Hcalls. unfold Evaluate, headersUnit. simpl.
    now rewrite evaluateHeaders_calls.
  - intros ho Hh. rewrite Hh in Hm. simpl in Hm.
    now rewrite Hdeny, Htraces in Hm.
  - intros err Hh. rewrite Hh in Hm. exact Hm.
Qed.

End Internal.

(** The theorem at the JWT endpoint without a session. *)
Lemma internal_requests_witness :
  outcome (Evaluate PolicyUnit (Testbed.evaluator true true)
             (Testbed.request true None "/.pomerium/jwt" ""
                Testbed.noCertificate)) =
    Ok {| Allow := NewRuleResult false [ReasonUserUnauthenticated];
          Deny := RuleResult_zero;
          ResHeaders := {[ "X-Pomerium-Jwt-Assertion" := ["signed:"] ]};
          Traces := [] |}.
Proof.
  destruct (internal_requests PolicyUnit (Testbed.evaluator true true)
              (Testbed.request true None "/.pomerium/jwt" ""
                 Testbed.noCertificate) eq_refl)
    as (po & _ & Hun & _ & _ & _ & _ & Hok & _).
  rewrite (Hok {| HResHeaders :=
                    {[ "X-Pomerium-Jwt-Assertion" := ["signed:"] ]} |})
    by (vm_compute; reflexivity).
  rewrite Hun; [reflexivity | right; reflexivity | reflexivity].
Defined.

(** C2 as stated fails: an internal request outside the two endpoints for
    which the headers evaluator fails gets the error of the headers unit and
    no Result with Allow = (true, PomeriumRoute). *)
Lemma internal_request_without_result :
  IsInternal (Testbed.request true None "/.pomerium/sign_in" "s1"
                Testbed.noCertificate) = true
  /\ ~ reserved_path "/.pomerium/sign_in"
  /\ outcome (Evaluate PolicyUnit (Testbed.evaluator true false)
                (Testbed.request true None "/.pomerium/sign_in" "s1"
                   Testbed.noCertificate)) =
       Err (errors_New "headers: eval fault")
  /\ ~ exists r,
         outcome (Evaluate PolicyUnit (Testbed.evaluator true false)
                    (Testbed.request true None "/.pomerium/sign_in" "s1"
                       Testbed.noCertificate)) = Ok r /\
         Allow r = NewRuleResult true [ReasonPomeriumRoute].
Proof.
  split; [reflexivity |]. split; [intros [H | H]; discriminate H |].
  split; [reflexivity |].
  intros (r & Hr & _). vm_compute in Hr. discriminate Hr.
Qed.

(** ** Joining the two units *)

Section Join.
Context {T : Types} {C : Collaborators}.
Implicit Types (e : Evaluator) (req : Request).

Lemma Evaluate_headers_error_first first e req err :
  returned (headersUnit e req) = Err err ->
  first = HeadersUnit \/ is_Ok (returned (policyUnit e req)) = true ->
  outcome (Evaluate first e req) = Err err.
Proof.
  intros Hh Hfirst. unfold Evaluate. simpl. rewrite Hh.
  destruct (returned (policyUnit e req)), first; simpl in *;
    try reflexivity; destruct Hfirst; discriminate.
Qed.

Lemma Evaluate_Ok_inv first e req r :
  outcome (Evaluate first e req) = Ok r ->
  exists po ho,
    returned (policyUnit e req) = Ok po /\
    returned (headersUnit e req) = Ok ho /\
    r = {| Allow := PAllow po; Deny := PDeny po;
           ResHeaders := HResHeaders ho; Traces := PTraces po |}.
Proof.
  unfold Evaluate. simpl.
  destruct (returned (policyUnit e req)) as [po | e1],
           (returned (headersUnit e req)) as [ho | e2]; simpl;
    try discriminate.
  intros [= <-]. eauto.
Qed.

(** C5 (amended): Evaluate runs the policy unit and the headers unit and
    joins both; if either fails it returns the first error and no Result;
    otherwise the Result takes Allow, Deny and Traces from the output of the
    policy unit and Headers from the output of the headers unit. *)
Theorem Evaluate_joins_both_units first e req :
  policyCalls (Evaluate first e req) = calls (policyUnit e req) /\
  headersCalls (Evaluate first e req) = calls (headersUnit e req) /\
  (forall po ho,
     returned (policyUnit e req) = Ok po ->
     returned (headersUnit e req) = Ok ho ->
     outcome (Evaluate first e req) =
       Ok {| Allow := PAllow po; Deny := PDeny po;
             ResHeaders := HResHeaders ho; Traces := PTraces po |}) /\
  (forall err,
     returned (policyUnit e req) = Err err ->
     first = PolicyUnit \/ is_Ok (returned (headersUnit e req)) = true ->
     outcome (Evaluate first e req) = Err err) /\
  (forall err,
     returned (headersUnit e req) = Err err ->
     first = HeadersUnit \/ is_Ok (returned (policyUnit e req)) = true ->
     outcome (Evaluate first e req) = Err err) /\
  (forall r,
     outcome (Evaluate first e req) = Ok r ->
     is_Ok (returned (policyUnit e req)) = true /\
     is_Ok (returned (headersUnit e req)) = true).
Proof.
  split; [reflexivity |]. split; [reflexivity |].
  split; [| split; [| split]].
  - intros po ho Hp Hh. pose proof (Evaluate_merges first e req po Hp) as Hm.
    rewrite Hh in Hm. exact Hm.
  - intros err. apply Evaluate_policy_error_first.
  - intros err. apply Evaluate_headers_error_first.
  - intros r Hr. apply Evaluate_Ok_inv in Hr as (po & ho & -> & -> & _).
    now split.
Qed.

(** C10: a non-internal request whose policy is present but whose route id
    cannot be computed makes Evaluate return an error and no Result; it is
    not turned into a Deny(RouteNotFound) decision. *)
Theorem RouteID_failure_is_an_error first e req p err :
  IsInternal req = false ->
  ReqPolicy req = Some p ->
  RouteID p = Err err ->
  returned (policyUnit e req) =
    Err (fmt_Errorf_w "authorize: error computing policy route id: %w" err) /\
  (exists err', outcome (Evaluate first e req) = Err err') /\
  (forall r, outcome (Evaluate first e req) <> Ok r) /\
  (first = PolicyUnit \/ is_Ok (returned (headersUnit e req)) = true ->
   outcome (Evaluate first e req) =
     Err (fmt_Errorf_w "authorize: error computing policy route id: %w" err)).
Proof.
  intros Hint Hp Hid.
  assert (Hu : returned (policyUnit e req) =
                 Err (fmt_Errorf_w
                        "authorize: error computing policy route id: %w" err)).
  { unfold policyUnit. rewrite Hint.
    now rewrite (evaluatePolicy_RouteID_fails e req p err). }
  split; [exact Hu |].
  destruct (Evaluate_policy_error first e req _ Hu) as [err' Herr'].
  split; [eauto |]. split.
  - intros r Hr. rewrite Herr' in Hr. discriminate Hr.
  - now apply Evaluate_policy_error_first.
Qed.

(** C9: every request, internal or not, with or without a registered
    policy, runs the headers unit, whose single call is to the
    HeadersEvaluator; a returned Result carries the headers of that call
    after the carry-over pass, and so does a Deny(RouteNotFound) result. *)
Theorem headers_unit_always_runs first e req :
  headersCalls (Evaluate first e req) =
    [Call_HeadersEvaluator_Evaluate (headersEvaluators e) (headersRequest req)]
  /\
  (forall r,
     outcome (Evaluate first e req) = Ok r ->
     exists res,
       HeadersEvaluator_Evaluate (headersEvaluators e) (headersRequest req) =
         Ok res /\
       ResHeaders r =
         carryOverJWTAssertion (HResHeaders res) (Headers (HTTP req)))
  /\
  (forall res,
     IsInternal req = false ->
     route_not_found e req ->
     HeadersEvaluator_Evaluate (headersEvaluators e) (headersRequest req) =
       Ok res ->
     outcome (Evaluate first e req) =
       Ok {| Allow := RuleResult_zero;
             Deny := NewRuleResult true [ReasonRouteNotFound];
             ResHeaders :=
               carryOverJWTAssertion (HResHeaders res) (Headers (HTTP req));
             Traces := [] |}).
Proof.
  split; [apply evaluateHeaders_calls |]. split.
  - intros r Hr. apply Evaluate_Ok_inv in Hr as (po & ho & _ & Hh & ->).
    unfold headersUnit in Hh. rewrite evaluateHeaders_returned in Hh.
    destruct (HeadersEvaluator_Evaluate (headersEvaluators e)
                (headersRequest req)) as [res | err]; [| discriminate Hh].
    injection Hh as <-. eauto.
  - intros res Hint Hnf Hres.
    assert (Hp : returned (policyUnit e req) = Ok denyRouteNotFound).
    { unfold policyUnit. rewrite Hint.
      apply (evaluatePolicy_route_not_found e req Hnf). }
    pose proof (Evaluate_merges first e req _ Hp) as Hm.
    unfold headersUnit in Hm. rewrite evaluateHeaders_returned, Hres in Hm.
    exact Hm.
Qed.

End Join.

(** The join at a request whose route id cannot be computed. *)
Lemma RouteID_failure_is_an_error_witness :
  outcome (Evaluate HeadersUnit (Testbed.evaluator true true)
             (Testbed.request false (Some Testbed.broken) "/" "s1"
                Testbed.noCertificate)) =
    Err (fmt_Errorf_w "authorize: error computing policy route id: %w"
           (errors_New "policy: empty from")).
Proof.
  apply (RouteID_failure_is_an_error HeadersUnit (Testbed.evaluator true true)
           (Testbed.request false (Some Testbed.broken) "/" "s1"
              Testbed.noCertificate)
           Testbed.broken (errors_New "policy: empty from"));
    [reflexivity | reflexivity | vm_compute; reflexivity |].
  right. reflexivity.
Defined.

(** The headers of a Deny(RouteNotFound) result, with an inbound assertion
    carried over. *)
Lemma headers_unit_always_runs_witness :
  outcome (Evaluate PolicyUnit (Testbed.evaluator true true)
             {| IsInternal := false;
                ReqPolicy := None;
                HTTP := Testbed.http "/"
                          {[ "X-Pomerium-Jwt-Assertion" := "B" ]}
                          Testbed.noCertificate;
                Session := {| ID := "s1" |} |}) =
    Ok {| Allow := RuleResult_zero;
          Deny := NewRuleResult true [ReasonRouteNotFound];
          ResHeaders :=
            {[ "X-Pomerium-Jwt-Assertion" := ["signed:s1"];
               "X-Pomerium-Jwt-Assertion-For" := ["B"] ]};
          Traces := [] |}.
Proof.
  destruct (headers_unit_always_runs PolicyUnit (Testbed.evaluator true true)
              {| IsInternal := false;
                 ReqPolicy := None;
                 HTTP := Testbed.http "/"
                           {[ "X-Pomerium-Jwt-Assertion" := "B" ]}
                           Testbed.noCertificate;
                 Session := {| ID := "s1" |} |}) as (_ & _ & Hnf).
  rewrite (Hnf {| HResHeaders :=
                    {[ "X-Pomerium-Jwt-Assertion" := ["signed:s1"] ]} |}
             eq_refl (or_introl eq_refl) eq_refl).
  vm_compute. reflexivity.
Defined.

(** The join at a registered route: decision and traces of the policy
    evaluator, headers of the headers evaluator. *)
Lemma Evaluate_joins_both_units_witness :
  outcome (Evaluate PolicyUnit (Testbed.evaluator true true)
             (Testbed.request false (Some Testbed.app) "/" "s1"
                Testbed.noCertificate)) =
    Ok {| Allow := NewRuleResult true [ReasonOther "accept"];
          Deny := NewRuleResult true [ReasonInvalidClientCertificate];
          ResHeaders := {[ "X-Pomerium-Jwt-Assertion" := ["signed:s1"] ]};
          Traces := ["accept"] |}.
Proof.
  destruct (Evaluate_joins_both_units PolicyUnit (Testbed.evaluator true true)
              (Testbed.request false (Some Testbed.app) "/" "s1"
                 Testbed.noCertificate)) as (_ & _ & Hok & _).
  rewrite (Hok (Testbed.accepted
                  (NewRuleResult true [ReasonInvalidClientCertificate]))
               (Testbed.signedHeaders "s1"))
    by (vm_compute; reflexivity).
  reflexivity.
Defined.

(** C5 as stated fails: the Traces of a Result are not a function of the
    output of the headers unit.  An internal and a non-internal request that
    differ in nothing else get the same headers and different traces. *)
Lemma Traces_not_from_headers_unit :
  ~ exists f : HeadersResponse -> list PolicyEvaluationTrace,
      forall (req : Request) (r : Result) (ho : HeadersResponse),
        outcome (Evaluate PolicyUnit (Testbed.evaluator true true) req) = Ok r ->
        returned (headersUnit (Testbed.evaluator true true) req) = Ok ho ->
        Traces r = f ho.
Proof.
  intros [f Hf].
  pose proof (Hf (Testbed.request true (Some Testbed.app) "/" "s1"
                    Testbed.noCertificate) _ _ eq_refl eq_refl) as H1.
  pose proof (Hf (Testbed.request false (Some Testbed.app) "/" "s1"
                    Testbed.noCertificate) _ _ eq_refl eq_refl) as H2.
  simpl in H1, H2. rewrite <- H2 in H1. discriminate H1.
Qed.

(** ** Client certificates *)

Section ClientCertificates.
Context {T : Types} {C : Collaborators}.
Implicit Types (e : Evaluator) (req : Request).

Lemma getClientCA_default e p :
  TLSDownstreamClientCA p = "" ->
  getClientCA e (Some p) = ([], Ok (clientCA e)).
Proof. unfold getClientCA. now intros ->. Qed.

Lemma getClientCA_override e p :
  TLSDownstreamClientCA p <> "" ->
  getClientCA e (Some p) =
    ([Call_DecodeString (TLSDownstreamClientCA p)],
     base64_DecodeString (TLSDownstreamClientCA p)).
Proof.
  intros Hca. unfold getClientCA.
  apply String.eqb_neq in Hca. rewrite Hca. simpl.
  now destruct (base64_DecodeString (TLSDownstreamClientCA p)).
Qed.

Lemma validations_app (l1 l2 : list Call) :
  validations (l1 ++ l2) = validations l1 ++ validations l2.
Proof. apply List.filter_app. Qed.

Lemma rule_evaluations_app (l1 l2 : list Call) :
  rule_evaluations (l1 ++ l2) = rule_evaluations l1 ++ rule_evaluations l2.
Proof. apply List.filter_app. Qed.

(** The calls of a non-internal request with a registered policy whose
    client CA resolves to [ca]. *)
Lemma registered_calls first e req p pe ca :
  IsInternal req = false ->
  registered e req p pe ->
  returned (getClientCA e (Some p)) = Ok ca ->
  let c := Call_isValidClientCertificate ca (clientCRL e)
             (ClientCertificate (HTTP req)) (clientCertConstraints e) in
  validations (all_calls (Evaluate first e req)) = [c] /\
  match isValidClientCertificate ca (clientCRL e)
          (ClientCertificate (HTTP req)) (clientCertConstraints e) with
  | Err err =>
      rule_evaluations (all_calls (Evaluate first e req)) = [] /\
      returned (policyUnit e req) =
        Err (fmt_Errorf_w
               "authorize: error validating client certificate: %w" err)
  | Ok valid =>
      let preq := {| PReqHTTP := HTTP req;
                     PReqSession := Session req;
                     IsValidClientCertificate := valid |} in
      rule_evaluations (all_calls (Evaluate first e req)) =
        [Call_PolicyEvaluator_Evaluate pe preq] /\
      returned (policyUnit e req) = PolicyEvaluator_Evaluate pe preq
  end.
Proof.
  intros Hint Hreg Hca c.
  unfold all_calls, Evaluate, policyUnit, headersUnit. simpl.
  rewrite Hint, evaluateHeaders_calls, validations_app, rule_evaluations_app.
  rewrite (evaluatePolicy_registered e req p pe Hreg).
  destruct (getClientCA_calls e (Some p)) as [Hv Hr].
  destruct (getClientCA e (Some p)) as [l [ca' | err]];
    simpl in Hca; [injection Hca as -> | discriminate Hca].
  unfold calls in Hv, Hr. simpl in Hv, Hr. fold c.
  destruct (isValidClientCertificate ca (clientCRL e)
              (ClientCertificate (HTTP req)) (clientCertConstraints e))
    as [valid | err]; unfold calls, returned; simpl;
    fold (validations (l ++ [c])); fold (rule_evaluations (l ++ [c]));
    try fold (validations
                (l ++ [c; Call_PolicyEvaluator_Evaluate pe
                            {| PReqHTTP := HTTP req;
                               PReqSession := Session req;
                               IsValidClientCertificate := valid |}]));
    try fold (rule_evaluations
                (l ++ [c; Call_PolicyEvaluator_Evaluate pe
                            {| PReqHTTP := HTTP req;
                               PReqSession := Session req;
                               IsValidClientCertificate := valid |}]));
    rewrite ?validations_app, ?rule_evaluations_app, Hv, ?Hr;
    repeat split; reflexivity.
Qed.

(** C4 (amended): for a non-internal request with a registered policy, an
    error of client-certificate validation makes the policy unit fail with
    that error (wrapped) before any rule is evaluated, and Evaluate returns
    an error and no Result: that error, unless the headers unit failed
    first.  A boolean verdict is no error: it is passed to the
    PolicyEvaluator as isValidClientCertificate, and the policy unit returns
    what that evaluator returns for it. *)
Theorem certificate_fault_versus_invalid first e req p pe ca :
  IsInternal req = false ->
  registered e req p pe ->
  returned (getClientCA e (Some p)) = Ok ca ->
  (forall err,
     isValidClientCertificate ca (clientCRL e)
       (ClientCertificate (HTTP req)) (clientCertConstraints e) = Err err ->
     returned (policyUnit e req) =
       Err (fmt_Errorf_w
              "authorize: error validating client certificate: %w" err) /\
     rule_evaluations (all_calls (Evaluate first e req)) = [] /\
     (exists err', outcome (Evaluate first e req) = Err err') /\
     (first = PolicyUnit \/ is_Ok (returned (headersUnit e req)) = true ->
      outcome (Evaluate first e req) =
        Err (fmt_Errorf_w
               "authorize: error validating client certificate: %w" err)))
  /\
  (forall valid,
     isValidClientCertificate ca (clientCRL e)
       (ClientCertificate (HTTP req)) (clientCertConstraints e) = Ok valid ->
     rule_evaluations (all_calls (Evaluate first e req)) =
       [Call_PolicyEvaluator_Evaluate pe
          {| PReqHTTP := HTTP req;
             PReqSession := Session req;
             IsValidClientCertificate := valid |}] /\
     returned (policyUnit e req) =
       PolicyEvaluator_Evaluate pe
         {| PReqHTTP := HTTP req;
            PReqSession := Session req;
            IsValidClientCertificate := valid |}).
Proof.
  intros Hint Hreg Hca.
  destruct (registered_calls first e req p pe ca Hint Hreg Hca) as [_ Hcalls].
  split.
  - intros err Herr. rewrite Herr in Hcalls. destruct Hcalls as [Hr Hp].
    split; [exact Hp |]. split; [exact Hr |]. split.
    + exact (Evaluate_policy_error first e req _ Hp).
    + now apply Evaluate_policy_error_first.
  - intros valid Hvalid. rewrite Hvalid in Hcalls. exact Hcalls.
Qed.

(** C8: for a non-internal request with a registered policy, the client CA
    handed to certificate validation is the global client CA when the policy
    has no downstream client CA, and the base64 decoding of the policy's
    downstream client CA when it has one; a downstream client CA that does
    not decode fails the policy unit with the decoding error, without any
    validation. *)
Theorem effective_client_CA first e req p pe :
  IsInternal req = false ->
  registered e req p pe ->
  (TLSDownstreamClientCA p = "" ->
   validations (all_calls (Evaluate first e req)) =
     [Call_isValidClientCertificate (clientCA e) (clientCRL e)
        (ClientCertificate (HTTP req)) (clientCertConstraints e)])
  /\
  (forall bs,
     TLSDownstreamClientCA p <> "" ->
     base64_DecodeString (TLSDownstreamClientCA p) = Ok bs ->
     validations (all_calls (Evaluate first e req)) =
       [Call_isValidClientCertificate bs (clientCRL e)
          (ClientCertificate (HTTP req)) (clientCertConstraints e)])
  /\
  (forall err,
     TLSDownstreamClientCA p <> "" ->
     base64_DecodeString (TLSDownstreamClientCA p) = Err err ->
     validations (all_calls (Evaluate first e req)) = [] /\
     returned (policyUnit e req) = Err err).
Proof.
  intros Hint Hreg. split; [| split].
  - intros Hnone.
    apply (registered_calls first e req p pe (clientCA e) Hint Hreg).
    now rewrite getClientCA_default.
  - intros bs Hsome Hbs.
    apply (registered_calls first e req p pe bs Hint Hreg).
    rewrite getClientCA_override by assumption. exact Hbs.
  - intros err Hsome Herr.
    unfold all_calls, Evaluate, policyUnit, headersUnit. simpl.
    rewrite Hint, evaluateHeaders_calls.
    rewrite (evaluatePolicy_registered e req p pe Hreg).
    rewrite getClientCA_override, Herr by assumption.
    now split.
Qed.

End ClientCertificates.

(** Validation fails on an unparsable leaf; a certificate not presented is
    reported as invalid to an evaluator built with the default rule. *)
Lemma certificate_fault_versus_invalid_witness :
  outcome (Evaluate PolicyUnit (Testbed.evaluator true true)
             (Testbed.request false (Some Testbed.app) "/" "s1"
                (Testbed.certificate "garbage"))) =
    Err (fmt_Errorf_w "authorize: error validating client certificate: %w"
           (errors_New "x509: malformed certificate"))
  /\
  returned (policyUnit (Testbed.evaluator true true)
              (Testbed.request false (Some Testbed.app) "/" "s1"
                 Testbed.noCertificate)) =
    Ok (Testbed.accepted (NewRuleResult true [ReasonInvalidClientCertificate])).
Proof.
  assert (Hreg : forall cert,
            registered (Testbed.evaluator true true)
              (Testbed.request false (Some Testbed.app) "/" "s1" cert)
              Testbed.app
              {| Testbed.defaultClientCertificateRule := true;
                 Testbed.tracing := true |}).
  { intros cert. split; [reflexivity |]. exists 15%N. split; reflexivity. }
  split.
  - destruct (certificate_fault_versus_invalid PolicyUnit
                (Testbed.evaluator true true)
                (Testbed.request false (Some Testbed.app) "/" "s1"
                   (Testbed.certificate "garbage"))
                Testbed.app _ "global-ca" eq_refl (Hreg _) eq_refl)
      as [Hfault _].
    destruct (Hfault (errors_New "x509: malformed certificate"))
      as (_ & _ & _ & Herr); [vm_compute; reflexivity |].
    apply Herr. left. reflexivity.
  - destruct (certificate_fault_versus_invalid PolicyUnit
                (Testbed.evaluator true true)
                (Testbed.request false (Some Testbed.app) "/" "s1"
                   Testbed.noCertificate)
                Testbed.app _ "global-ca" eq_refl (Hreg _) eq_refl)
      as [_ Hbool].
    destruct (Hbool false) as [_ Hp]; [vm_compute; reflexivity |].
    rewrite Hp. vm_compute. reflexivity.
Defined.

(** C4 as stated fails: an invalid certificate is passed on as
    isValidClientCertificate = false, and a PolicyEvaluator built without
    the default rule on invalid client certificates then allows the request
    and denies nothing. *)
Lemma invalid_certificate_not_denied :
  registered (Testbed.evaluator false true)
    (Testbed.request false (Some Testbed.app) "/" "s1"
       (Testbed.certificate "issued-by:mallory"))
    Testbed.app
    {| Testbed.defaultClientCertificateRule := false;
       Testbed.tracing := true |}
  /\ isValidClientCertificate "global-ca" ""
       (Testbed.certificate "issued-by:mallory") [] = Ok false
  /\ outcome (Evaluate PolicyUnit (Testbed.evaluator false true)
                (Testbed.request false (Some Testbed.app) "/" "s1"
                   (Testbed.certificate "issued-by:mallory"))) =
       Ok {| Allow := NewRuleResult true [ReasonOther "accept"];
             Deny := RuleResult_zero;
             ResHeaders := {[ "X-Pomerium-Jwt-Assertion" := ["signed:s1"] ]};
             Traces := ["accept"] |}
  /\ ~ exists r,
         outcome (Evaluate PolicyUnit (Testbed.evaluator false true)
                    (Testbed.request false (Some Testbed.app) "/" "s1"
                       (Testbed.certificate "issued-by:mallory"))) = Ok r /\
         Value (Deny r) = true.
Proof.
  split. { split; [reflexivity |]. exists 15%N. split; reflexivity. }
  split; [vm_compute; reflexivity |].
  split; [vm_compute; reflexivity |].
  intros (r & Hr & Hdeny). vm_compute in Hr. injection Hr as <-.
  discriminate Hdeny.
Qed.

(** The route's own CA is decoded and used; without one the global CA is. *)
Lemma effective_client_CA_witness :
  validations
    (all_calls (Evaluate PolicyUnit (Testbed.evaluator true true)
                  (Testbed.request false (Some Testbed.appWithCA) "/" "s1"
                     (Testbed.certificate "issued-by:route-ca")))) =
    [Call_isValidClientCertificate "route-ca" ""
       (Testbed.certificate "issued-by:route-ca") []]
  /\
  validations
    (all_calls (Evaluate PolicyUnit (Testbed.evaluator true true)
                  (Testbed.request false (Some Testbed.app) "/" "s1"
                     (Testbed.certificate "issued-by:route-ca")))) =
    [Call_isValidClientCertificate "global-ca" ""
       (Testbed.certificate "issued-by:route-ca") []].
Proof.
  split.
  - destruct (effective_client_CA PolicyUnit (Testbed.evaluator true true)
                (Testbed.request false (Some Testbed.appWithCA) "/" "s1"
                   (Testbed.certificate "issued-by:route-ca"))
                Testbed.appWithCA
                {| Testbed.defaultClientCertificateRule := true;
                   Testbed.tracing := true |} eq_refl)
      as (_ & Hroute & _).
    { split; [reflexivity |]. exists 15%N. split; reflexivity. }
    apply (Hroute "route-ca"); [discriminate | vm_compute; reflexivity].
  - destruct (effective_client_CA PolicyUnit (Testbed.evaluator true true)
                (Testbed.request false (Some Testbed.app) "/" "s1"
                   (Testbed.certificate "issued-by:route-ca"))
                Testbed.app
                {| Testbed.defaultClientCertificateRule := true;
                   Testbed.tracing := true |} eq_refl)
      as (Hglobal & _).
    { split; [reflexivity |]. exists 15%N. split; reflexivity. }
    apply Hglobal. reflexivity.
Defined.

(** ** Carrying over an inbound assertion *)

Section CarryOver.
Context {T : Types} {C : Collaborators}.
Implicit Types (dst : gmap string (list string)) (src : gmap string string).

Lemma lookup_ok_Some src k v :
  src !! k = Some v -> lookup_ok src k = (v, true).
Proof. unfold lookup_ok. now intros ->. Qed.

Lemma lookup_ok_no_value src k :
  no_value src k ->
  exists v ok, lookup_ok src k = (v, ok) /\
               ok && negb (v =? "")%string = false.
Proof.
  unfold lookup_ok. intros [-> | ->]; eexists _, _; (split; [reflexivity |]);
    reflexivity.
Qed.

Lemma nonempty_eqb (v : string) : v <> "" -> negb (v =? "")%string = true.
Proof. intros Hv. apply String.eqb_neq in Hv. now rewrite Hv. Qed.

Lemma carryOver_forwarded dst src v :
  src !! inboundAssertionFor = Some v -> v <> "" ->
  carryOverJWTAssertion dst src = Header_Add dst inboundAssertionFor v.
Proof.
  intros Hv Hne. unfold carryOverJWTAssertion. fold inboundAssertionFor.
  rewrite (lookup_ok_Some _ _ _ Hv). simpl.
  now rewrite (nonempty_eqb v Hne).
Qed.

Lemma carryOver_plain dst src v :
  no_value src inboundAssertionFor ->
  src !! inboundAssertion = Some v -> v <> "" ->
  carryOverJWTAssertion dst src = Header_Add dst inboundAssertionFor v.
Proof.
  intros Hfor Hv Hne. unfold carryOverJWTAssertion.
  fold inboundAssertionFor inboundAssertion.
  destruct (lookup_ok_no_value _ _ Hfor) as (w & ok & -> & ->).
  rewrite (lookup_ok_Some _ _ _ Hv). simpl.
  now rewrite (nonempty_eqb v Hne).
Qed.

Lemma carryOver_nothing dst src :
  no_value src inboundAssertionFor -> no_value src inboundAssertion ->
  carryOverJWTAssertion dst src = dst.
Proof.
  intros Hfor Hplain. unfold carryOverJWTAssertion.
  fold inboundAssertionFor inboundAssertion.
  destruct (lookup_ok_no_value _ _ Hfor) as (w & ok & -> & ->).
  now destruct (lookup_ok_no_value _ _ Hplain) as (w' & ok' & -> & ->).
Qed.

Lemma Header_Add_lookup dst v :
  Header_Add dst inboundAssertionFor v !! outboundAssertionFor =
    Some (default [] (dst !! outboundAssertionFor) ++ [v]).
Proof. unfold Header_Add. fold outboundAssertionFor. apply lookup_insert_eq. Qed.

Lemma Header_Add_lookup_ne dst v k :
  k <> outboundAssertionFor ->
  Header_Add dst inboundAssertionFor v !! k = dst !! k.
Proof.
  intros Hk. unfold Header_Add. fold outboundAssertionFor.
  now apply lookup_insert_ne.
Qed.

(** C6: after the headers evaluation, a non-empty inbound assertion-for
    header is appended verbatim to the outbound assertion-for header,
    whatever the rest of the inbound headers holds (the plain assertion
    header is not consulted); without one, a non-empty inbound assertion
    header is appended to the outbound assertion-for header; with neither,
    the outbound headers are left as the headers evaluator produced them. *)
Theorem assertion_carry_over dst src :
  (forall v,
     src !! inboundAssertionFor = Some v -> v <> "" ->
     carryOverJWTAssertion dst src = Header_Add dst inboundAssertionFor v /\
     forall src',
       src' !! inboundAssertionFor = Some v ->
       carryOverJWTAssertion dst src' = carryOverJWTAssertion dst src)
  /\
  (forall v,
     no_value src inboundAssertionFor ->
     src !! inboundAssertion = Some v -> v <> "" ->
     carryOverJWTAssertion dst src = Header_Add dst inboundAssertionFor v)
  /\
  (no_value src inboundAssertionFor -> no_value src inboundAssertion ->
   carryOverJWTAssertion dst src = dst)
  /\
  (forall v,
     Header_Add dst inboundAssertionFor v !! outboundAssertionFor =
       Some (default [] (dst !! outboundAssertionFor) ++ [v]) /\
     forall k, k <> outboundAssertionFor ->
       Header_Add dst inboundAssertionFor v !! k = dst !! k)
  /\
  (forall (e : Evaluator) (req : Request) res,
     HeadersEvaluator_Evaluate (headersEvaluators e) (headersRequest req) =
       Ok res ->
     returned (evaluateHeaders e req) =
       Ok {| HResHeaders :=
               carryOverJWTAssertion (HResHeaders res) (Headers (HTTP req)) |}).
Proof.
  split; [| split; [| split; [| split]]].
  - intros v Hv Hne. split; [now apply carryOver_forwarded |].
    intros src' Hv'.
    now rewrite (carryOver_forwarded dst src v), (carryOver_forwarded dst src' v).
  - intros v. apply carryOver_plain.
  - apply carryOver_nothing.
  - intros v. split; [apply Header_Add_lookup |].
    intros k. apply Header_Add_lookup_ne.
  - intros e req res Hres. now rewrite evaluateHeaders_returned, Hres.
Qed.

End CarryOver.

(** Inbound assertion-for "A" next to an assertion "B": "A" is carried
    over. *)
Lemma assertion_carry_over_witness :
  carryOverJWTAssertion (C := Testbed.collaborators) ∅
    {[ "X-Pomerium-Jwt-Assertion-For" := "A";
       "X-Pomerium-Jwt-Assertion" := "B" ]} =
    {[ "X-Pomerium-Jwt-Assertion-For" := ["A"] ]}.
Proof.
  destruct (assertion_carry_over (C := Testbed.collaborators) ∅
              {[ "X-Pomerium-Jwt-Assertion-For" := "A";
                 "X-Pomerium-Jwt-Assertion" := "B" ]}) as (Hfor & _).
  destruct (Hfor "A") as [-> _]; [vm_compute; reflexivity | discriminate |].
  vm_compute. reflexivity.
Defined.

(** ** The signing key at construction *)

Section SigningKeys.
Context {T : Types} {C : Collaborators}.
Implicit Types (cfg : evaluatorConfig) (store : Store).

Lemma length_zero_eqb (s : string) :
  (String.length s =? 0)%nat = true <-> s = "".
Proof. destruct s; simpl; split; intros H; congruence. Qed.

Lemma getJWK_supplied cfg :
  cfg_signingKey cfg <> "" ->
  getJWK cfg =
    ([Call_PrivateJWKFromBytes (cfg_signingKey cfg)],
     match PrivateJWKFromBytes (cfg_signingKey cfg) with
     | Ok jwk => Ok jwk
     | Err err => Err (fmt_Errorf_w "couldn't generate signing key: %w" err)
     end).
Proof.
  intros Hkey. unfold getJWK.
  destruct (String.length (cfg_signingKey cfg) =? 0)%nat eqn:Hlen.
  - apply length_zero_eqb in Hlen. contradiction.
  - rewrite bind_ret.
    now destruct (PrivateJWKFromBytes (cfg_signingKey cfg)).
Qed.

Lemma getJWK_generated cfg :
  cfg_signingKey cfg = "" ->
  getJWK cfg =
    match NewSigningKey with
    | Err err =>
        ([Call_NewSigningKey],
         Err (fmt_Errorf_w "couldn't generate signing key: %w" err))
    | Ok key =>
        match EncodePrivateKey key with
        | Err err =>
            ([Call_NewSigningKey; Call_EncodePrivateKey key],
             Err (fmt_Errorf_w "bad signing key: %w" err))
        | Ok bs =>
            ([Call_NewSigningKey; Call_EncodePrivateKey key;
              Call_PrivateJWKFromBytes bs],
             match PrivateJWKFromBytes bs with
             | Ok jwk => Ok jwk
             | Err err =>
                 Err (fmt_Errorf_w "couldn't generate signing key: %w" err)
             end)
        end
    end.
Proof.
  intros Hkey. unfold getJWK. rewrite Hkey. simpl.
  destruct NewSigningKey as [key | err]; simpl; [| reflexivity].
  destruct (EncodePrivateKey key) as [bs | err]; simpl; [| reflexivity].
  now destruct (PrivateJWKFromBytes bs).
Qed.

Lemma updateStore_fails cfg store l err :
  getJWK cfg = (l, Err err) ->
  updateStore cfg store =
    (l, store, Some (fmt_Errorf_w "authorize: couldn't create signer: %w" err)).
Proof. unfold updateStore. now intros ->. Qed.

Lemma New_fails_with_updateStore store options l store' err :
  updateStore (getConfig options) store = (l, store', Some err) ->
  New store options = (l, store', Err err).
Proof. unfold New. now intros ->. Qed.

Lemma newPolicyEvaluators_no_key_generation store cfg (ps : list Policy)
    (acc : gmap N PolicyEvaluator) :
  List.filter is_key_generation
    (calls (newPolicyEvaluators store cfg ps acc)) = [].
Proof.
  revert acc. induction ps as [| p ps IH]; intros acc;
    cbn [newPolicyEvaluators]; [reflexivity |].
  destruct (RouteID p) as [id | err] eqn:Hid.
  - rewrite (bind_wrapped_call_Ok _ _ _ id) by reflexivity.
    destruct (NewPolicyEvaluator store p
                (cfg_addDefaultClientCertificateRule cfg)) as [pe | err] eqn:Hpe.
    + rewrite (bind_call_Ok _ _ pe) by reflexivity. simpl. apply IH.
    + now rewrite (bind_call_Err _ _ err).
  - now rewrite (bind_wrapped_call_Err _ _ _ err).
Qed.

Lemma New_supplied_no_key_generation store (options : list Option) :
  cfg_signingKey (getConfig options) <> "" ->
  List.filter is_key_generation (fst (fst (New store options))) = [].
Proof.
  intros Hkey. unfold New, updateStore. rewrite (getJWK_supplied _ Hkey).
  destruct (PrivateJWKFromBytes (cfg_signingKey (getConfig options)))
    as [jwk | err]; [| reflexivity].
  cbv zeta. cbn [fst snd]. rewrite List.filter_app.
  set (store' := UpdateSigningKey _ jwk).
  destruct (NewHeadersEvaluator store') as [he | err] eqn:Hhe.
  - rewrite (bind_call_Ok _ _ he) by reflexivity. simpl.
    pose proof (newPolicyEvaluators_no_key_generation store'
                  (getConfig options) (cfg_policies (getConfig options)) ∅)
      as Hloop.
    destruct (newPolicyEvaluators store' (getConfig options)
                (cfg_policies (getConfig options)) ∅) as [l [pes | err]];
      simpl in *; now rewrite app_nil_r || exact Hloop.
  - now rewrite (bind_call_Err _ _ err).
Qed.

End SigningKeys.

(** ** The boundary around the rule engine *)

Section RuleEngine.
Context {T : Types} {C : Collaborators} {B : Boundary}.




End RuleEngine.



(** * Further properties of the code *)

(** ** Options compose field by field *)

Section OptionFacts.
Context {T : Types}.
Implicit Types (cfg : evaluatorConfig) (options rest : list Option)
  (s : Setting).

Lemma getConfig_app options rest :
  getConfig (options ++ rest) =
    fold_left (fun cfg o => o cfg) rest (getConfig options).
Proof. unfold getConfig. apply fold_left_app. Qed.

Lemma option_same_field s1 s2 cfg :
  field_of s1 = field_of s2 ->
  option_of s2 (option_of s1 cfg) = option_of s2 cfg.
Proof. destruct s1, s2; intros H; try discriminate H; reflexivity. Qed.

Lemma option_other_field s1 s2 cfg :
  field_of s1 <> field_of s2 ->
  option_of s2 (option_of s1 cfg) = option_of s1 (option_of s2 cfg).
Proof. destruct s1, s2; intros H; try reflexivity; now contradiction H. Qed.

(** Of two options for the same field the later one decides: the earlier
    one can be dropped, wherever the pair stands in the option list. *)
Theorem later_option_wins options rest s1 s2 :
  field_of s1 = field_of s2 ->
  getConfig (options ++ [option_of s1; option_of s2] ++ rest) =
    getConfig (options ++ [option_of s2] ++ rest).
Proof.
  intros Hf. rewrite !getConfig_app, !fold_left_app. simpl.
  now rewrite option_same_field.
Qed.

(** Options for different fields can be given in either order. *)
Theorem options_commute options rest s1 s2 :
  field_of s1 <> field_of s2 ->
  getConfig (options ++ [option_of s1; option_of s2] ++ rest) =
    getConfig (options ++ [option_of s2; option_of s1] ++ rest).
Proof.
  intros Hf. rewrite !getConfig_app, !fold_left_app. simpl.
  now rewrite option_other_field.
Qed.

Lemma signingKey_untouched s cfg :
  field_of s <> FieldSigningKey ->
  cfg_signingKey (option_of s cfg) = cfg_signingKey cfg.
Proof. destruct s; intros H; try reflexivity; now contradiction H. Qed.

Lemma signingKey_unset (ss : list Setting) cfg :
  Forall (fun s => field_of s <> FieldSigningKey) ss ->
  cfg_signingKey (fold_left (fun cfg o => o cfg) (map option_of ss) cfg) =
    cfg_signingKey cfg.
Proof.
  intros Hss. revert cfg.
  induction Hss as [| s ss Hs _ IH]; intros cfg; simpl; [reflexivity |].
  now rewrite IH, signingKey_untouched.
Qed.

End OptionFacts.

Lemma later_option_wins_witness :
  cfg_signingKey
    (getConfig (T := Testbed.types)
       ([WithClientCA "ca"] ++
        [option_of (SetSigningKey "old"); option_of (SetSigningKey "new")] ++
        [WithClientCRL "crl"])) = "new".
Proof.
  rewrite (later_option_wins (T := Testbed.types) [WithClientCA "ca"]
             [WithClientCRL "crl"] (SetSigningKey "old") (SetSigningKey "new")
             eq_refl).
  reflexivity.
Defined.

Lemma options_commute_witness :
  getConfig (T := Testbed.types)
    ([] ++ [option_of (SetClientCA "ca"); option_of (SetSigningKey "key")] ++ [])
  = getConfig (T := Testbed.types)
      [WithSigningKey "key"; WithClientCA "ca"].
Proof.
  rewrite (options_commute (T := Testbed.types) [] []
             (SetClientCA "ca") (SetSigningKey "key"));
    [reflexivity | discriminate].
Defined.

(** ** What construction leaves behind *)

Section ConstructionFacts.
Context {T : Types} {C : Collaborators}.
Implicit Types (cfg : evaluatorConfig) (store : Store) (e : Evaluator)
  (ps : list Policy) (acc m : gmap N PolicyEvaluator).

Lemma updateStore_spec cfg store :
  updateStore cfg store =
    match returned (getJWK cfg) with
    | Ok jwk => (calls (getJWK cfg), updatedStore cfg store jwk, None)
    | Err err =>
        (calls (getJWK cfg), store,
         Some (fmt_Errorf_w "authorize: couldn't create signer: %w" err))
    end.
Proof.
  unfold updateStore. now destruct (getJWK cfg) as [l [jwk | err]].
Qed.

Lemma New_spec store (options : list Option) :
  New store options =
    let cfg := getConfig options in
    match returned (getJWK cfg) with
    | Err err =>
        (calls (getJWK cfg), store,
         Err (fmt_Errorf_w "authorize: couldn't create signer: %w" err))
    | Ok jwk =>
        let store' := updatedStore cfg store jwk in
        match NewHeadersEvaluator store' with
        | Err err =>
            (calls (getJWK cfg) ++ [Call_NewHeadersEvaluator], store', Err err)
        | Ok he =>
            let loop := newPolicyEvaluators store' cfg (cfg_policies cfg) ∅ in
            (calls (getJWK cfg) ++ Call_NewHeadersEvaluator :: calls loop,
             store',
             match returned loop with
             | Err err => Err err
             | Ok pes =>
                 Ok {| policyEvaluators := pes;
                       headersEvaluators := he;
                       clientCA := cfg_clientCA cfg;
                       clientCRL := cfg_clientCRL cfg;
                       clientCertConstraints := cfg_clientCertConstraints cfg |}
             end)
        end
    end.
Proof.
  unfold New. rewrite updateStore_spec. cbv zeta.
  destruct (returned (getJWK (getConfig options))) as [jwk | err];
    [| reflexivity].
  set (store' := updatedStore _ store jwk).
  destruct (NewHeadersEvaluator store') as [he | err] eqn:Hhe.
  - rewrite (bind_call_Ok _ _ he) by reflexivity.
    destruct (newPolicyEvaluators store' (getConfig options)
                (cfg_policies (getConfig options)) ∅) as [l' [pes | err]];
      unfold calls, returned; simpl; rewrite ?app_nil_r; reflexivity.
  - now rewrite (bind_call_Err _ _ err).
Qed.

Lemma loop_cons store cfg p ps acc :
  returned (newPolicyEvaluators store cfg (p :: ps) acc) =
    match RouteID p with
    | Err err =>
        Err (fmt_Errorf_w "authorize: error computing policy route id: %w" err)
    | Ok id =>
        match NewPolicyEvaluator store p
                (cfg_addDefaultClientCertificateRule cfg) with
        | Err err => Err err
        | Ok pe =>
            returned (newPolicyEvaluators store cfg ps (<[id := pe]> acc))
        end
    end.
Proof.
  cbn [newPolicyEvaluators].
  destruct (RouteID p) as [id | err] eqn:Hid.
  - rewrite (bind_wrapped_call_Ok _ _ _ id) by reflexivity.
    destruct (NewPolicyEvaluator store p
                (cfg_addDefaultClientCertificateRule cfg)) as [pe | err] eqn:Hpe.
    + now rewrite (bind_call_Ok _ _ pe).
    + now rewrite (bind_call_Err _ _ err).
  - now rewrite (bind_wrapped_call_Err _ _ _ err).
Qed.

Lemma loop_cons_Ok store cfg p ps acc m :
  returned (newPolicyEvaluators store cfg (p :: ps) acc) = Ok m ->
  exists id pe,
    builds store cfg p id pe /\
    returned (newPolicyEvaluators store cfg ps (<[id := pe]> acc)) = Ok m.
Proof.
  rewrite loop_cons. unfold builds.
  destruct (RouteID p) as [id | err]; [| discriminate].
  destruct (NewPolicyEvaluator store p
              (cfg_addDefaultClientCertificateRule cfg)) as [pe | err];
    [| discriminate].
  eauto.
Qed.

(** Entries under route ids that no later policy has survive the loop. *)
Lemma loop_keeps store cfg ps acc m id :
  returned (newPolicyEvaluators store cfg ps acc) = Ok m ->
  Forall (fun q => RouteID q <> Ok id) ps ->
  m !! id = acc !! id.
Proof.
  revert acc. induction ps as [| p ps IH]; intros acc Hm Hps.
  - simpl in Hm. now injection Hm as <-.
  - apply loop_cons_Ok in Hm as (id' & pe & [Hid _] & Hm).
    inversion Hps as [| ? ? Hp Hps']; subst.
    rewrite (IH _ Hm Hps'). apply lookup_insert_ne. congruence.
Qed.

Lemma loop_grows store cfg ps acc m id :
  returned (newPolicyEvaluators store cfg ps acc) = Ok m ->
  is_Some (acc !! id) -> is_Some (m !! id).
Proof.
  revert acc. induction ps as [| p ps IH]; intros acc Hm Hacc.
  - simpl in Hm. now injection Hm as <-.
  - apply loop_cons_Ok in Hm as (id' & pe & _ & Hm).
    apply (IH _ Hm). rewrite lookup_insert. case_decide; eauto.
Qed.

Lemma loop_complete store cfg ps acc m p :
  returned (newPolicyEvaluators store cfg ps acc) = Ok m ->
  In p ps ->
  exists id, RouteID p = Ok id /\ is_Some (m !! id).
Proof.
  revert acc. induction ps as [| q ps IH]; intros acc Hm Hin; [easy |].
  apply loop_cons_Ok in Hm as (id & pe & [Hid _] & Hm).
  destruct Hin as [-> | Hin]; [| now apply (IH _ Hm)].
  exists id. split; [assumption |].
  apply (loop_grows _ _ _ _ _ _ Hm). rewrite lookup_insert_eq. eauto.
Qed.

Lemma loop_sound store cfg ps acc m id pe :
  returned (newPolicyEvaluators store cfg ps acc) = Ok m ->
  m !! id = Some pe ->
  acc !! id = Some pe \/ exists p, In p ps /\ builds store cfg p id pe.
Proof.
  revert acc. induction ps as [| q ps IH]; intros acc Hm Hpe.
  - simpl in Hm. injection Hm as <-. now left.
  - apply loop_cons_Ok in Hm as (id' & pe' & Hq & Hm).
    destruct (IH _ Hm Hpe) as [Hacc | (p & Hin & Hp)].
    + rewrite lookup_insert in Hacc. case_decide as Hid.
      * injection Hacc as <-. subst id'. right. exists q. split; [now left |].
        exact Hq.
      * now left.
    + right. exists p. split; [now right | exact Hp].
Qed.

Lemma loop_last store cfg ps1 p ps2 acc m id pe :
  returned (newPolicyEvaluators store cfg (ps1 ++ p :: ps2) acc) = Ok m ->
  builds store cfg p id pe ->
  Forall (fun q => RouteID q <> Ok id) ps2 ->
  m !! id = Some pe.
Proof.
  revert acc. induction ps1 as [| q ps1 IH]; intros acc Hm Hp Hps2.
  - simpl app in Hm. apply loop_cons_Ok in Hm as (id' & pe' & Hp' & Hm).
    destruct Hp as [Hid Hpe], Hp' as [Hid' Hpe'].
    rewrite Hid in Hid'. injection Hid' as <-.
    rewrite Hpe in Hpe'. injection Hpe' as <-.
    rewrite (loop_keeps _ _ _ _ _ _ Hm Hps2). apply lookup_insert_eq.
  - simpl app in Hm. apply loop_cons_Ok in Hm as (id' & pe' & _ & Hm).
    now apply (IH _ Hm).
Qed.

Lemma loop_succeeds store cfg ps acc :
  Forall (buildable store cfg) ps ->
  exists m, returned (newPolicyEvaluators store cfg ps acc) = Ok m.
Proof.
  intros Hps. revert acc.
  induction Hps as [| p ps (id & pe & Hid & Hpe) _ IH]; intros acc.
  - simpl. eauto.
  - rewrite loop_cons, Hid, Hpe. apply IH.
Qed.

Lemma loop_buildable store cfg ps acc m :
  returned (newPolicyEvaluators store cfg ps acc) = Ok m ->
  Forall (buildable store cfg) ps.
Proof.
  revert acc. induction ps as [| p ps IH]; intros acc Hm; [constructor |].
  apply loop_cons_Ok in Hm as (id & pe & [Hid Hpe] & Hm).
  constructor; [exists id, pe; now split | now apply (IH _ Hm)].
Qed.

(** What a successful [New] tells about its result. *)
Lemma New_Ok_inv store (options : list Option) l store' e :
  New store options = (l, store', Ok e) ->
  exists jwk,
    returned (getJWK (getConfig options)) = Ok jwk /\
    store' = updatedStore (getConfig options) store jwk /\
    NewHeadersEvaluator store' = Ok (headersEvaluators e) /\
    returned (newPolicyEvaluators store' (getConfig options)
                (cfg_policies (getConfig options)) ∅) =
      Ok (policyEvaluators e) /\
    clientCA e = cfg_clientCA (getConfig options) /\
    clientCRL e = cfg_clientCRL (getConfig options) /\
    clientCertConstraints e = cfg_clientCertConstraints (getConfig options).
Proof.
  rewrite New_spec. cbv zeta.
  destruct (returned (getJWK (getConfig options))) as [jwk | err];
    [| discriminate].
  destruct (NewHeadersEvaluator (updatedStore (getConfig options) store jwk))
    as [he | err] eqn:Hhe; [| discriminate].
  destruct (returned (newPolicyEvaluators
                        (updatedStore (getConfig options) store jwk)
                        (getConfig options)
                        (cfg_policies (getConfig options)) ∅))
    as [pes | err] eqn:Hloop; [| discriminate].
  intros [= <- <- <-]. exists jwk. simpl. repeat split; assumption.
Qed.

(** When construction succeeds, every configured policy is registered
    under its route id, so a request that carries one of them finds a
    policy evaluator. *)
Theorem New_registers_every_policy store (options : list Option) l store' e :
  New store options = (l, store', Ok e) ->
  forall (req : Request) p,
    ReqPolicy req = Some p ->
    In p (cfg_policies (getConfig options)) ->
    exists pe, registered e req p pe.
Proof.
  intros HNew req p Hreq Hin.
  apply New_Ok_inv in HNew as (jwk & _ & _ & _ & Hloop & _).
  destruct (loop_complete _ _ _ _ _ p Hloop Hin) as (id & Hid & [pe Hpe]).
  exists pe. split; [assumption |]. eauto.
Qed.

(** When construction succeeds, every registered policy evaluator was built
    for a configured policy with that route id, against the updated store
    and with the configured default rule; a request whose policy has a
    route id that no configured policy has is without a route. *)
Theorem New_registers_only_configured store (options : list Option)
    l store' e :
  New store options = (l, store', Ok e) ->
  (forall id pe,
     policyEvaluators e !! id = Some pe ->
     exists p, In p (cfg_policies (getConfig options)) /\
               builds store' (getConfig options) p id pe)
  /\
  (forall (req : Request) p id,
     ReqPolicy req = Some p -> RouteID p = Ok id ->
     Forall (fun q => RouteID q <> Ok id) (cfg_policies (getConfig options)) ->
     route_not_found e req).
Proof.
  intros HNew.
  apply New_Ok_inv in HNew as (jwk & _ & _ & _ & Hloop & _).
  split.
  - intros id pe Hpe.
    destruct (loop_sound _ _ _ _ _ _ _ Hloop Hpe) as [Hacc | Hp];
      [| exact Hp].
    rewrite lookup_empty in Hacc. discriminate Hacc.
  - intros req p id Hreq Hid Hnone. right. exists p, id.
    repeat split; try assumption.
    rewrite (loop_keeps _ _ _ _ _ _ Hloop Hnone). apply lookup_empty.
Qed.

(** When two configured policies have the same route id, the policy
    evaluator of the later one is the one registered. *)
Theorem New_last_policy_wins store (options : list Option) l store' e
    ps1 p ps2 id pe :
  New store options = (l, store', Ok e) ->
  cfg_policies (getConfig options) = ps1 ++ p :: ps2 ->
  builds store' (getConfig options) p id pe ->
  Forall (fun q => RouteID q <> Ok id) ps2 ->
  policyEvaluators e !! id = Some pe.
Proof.
  intros HNew Hps Hp Hps2.
  apply New_Ok_inv in HNew as (jwk & _ & _ & _ & Hloop & _).
  rewrite Hps in Hloop. exact (loop_last _ _ _ _ _ _ _ _ _ Hloop Hp Hps2).
Qed.

(** Construction succeeds exactly when a signing key is obtained, the
    headers evaluator can be built on the updated store, and every
    configured policy has a route id and a policy evaluator: one policy
    that cannot be built fails the whole construction. *)
Theorem New_succeeds_iff store (options : list Option) :
  is_Ok (New_returned (New store options)) = true <->
  exists jwk,
    returned (getJWK (getConfig options)) = Ok jwk /\
    is_Ok (NewHeadersEvaluator
             (updatedStore (getConfig options) store jwk)) = true /\
    Forall (buildable (updatedStore (getConfig options) store jwk)
              (getConfig options))
           (cfg_policies (getConfig options)).
Proof.
  rewrite New_spec. cbv zeta. unfold New_returned. split.
  - destruct (returned (getJWK (getConfig options))) as [jwk | err];
      [| discriminate].
    destruct (NewHeadersEvaluator (updatedStore (getConfig options) store jwk))
      as [he | err] eqn:Hhe; [| discriminate].
    cbn [snd].
    destruct (returned (newPolicyEvaluators
                          (updatedStore (getConfig options) store jwk)
                          (getConfig options)
                          (cfg_policies (getConfig options)) ∅))
      as [pes | err] eqn:Hloop; [| discriminate].
    intros _. exists jwk. split; [reflexivity |].
    split; [now rewrite Hhe |].
    exact (loop_buildable _ _ _ _ _ Hloop).
  - intros (jwk & -> & Hhe & Hps).
    destruct (NewHeadersEvaluator (updatedStore (getConfig options) store jwk))
      as [he | err]; [| discriminate Hhe].
    cbn [snd].
    destruct (loop_succeeds _ _ _ ∅ Hps) as [m ->]. reflexivity.
Qed.

(** The store is updated as soon as the signing key is obtained and is not
    rolled back: whether the headers evaluator or a policy evaluator can be
    built afterwards does not matter for the store.  Without a signing key
    the store is left as it was. *)
Theorem New_store_follows_signing_key store (options : list Option) :
  New_store (New store options) =
    match returned (getJWK (getConfig options)) with
    | Ok jwk => updatedStore (getConfig options) store jwk
    | Err _ => store
    end
  /\
  (forall jwk,
     returned (getJWK (getConfig options)) = Ok jwk ->
     SigningKey (New_store (New store options)) = Some jwk /\
     RoutePolicies (New_store (New store options)) =
       cfg_policies (getConfig options)).
Proof.
  assert (Hstore : New_store (New store options) =
            match returned (getJWK (getConfig options)) with
            | Ok jwk => updatedStore (getConfig options) store jwk
            | Err _ => store
            end).
  { rewrite New_spec. cbv zeta. unfold New_store.
    destruct (returned (getJWK (getConfig options))) as [jwk | err];
      [| reflexivity].
    now destruct (NewHeadersEvaluator
                    (updatedStore (getConfig options) store jwk)). }
  split; [exact Hstore |].
  intros jwk Hjwk. rewrite Hstore, Hjwk. now split.
Qed.

(** A signing key returned by getJWK was decoded by PrivateJWKFromBytes,
    which is the last call made: from the configured key when there is one,
    from the encoding of a generated key otherwise. *)
Theorem getJWK_provenance cfg jwk :
  returned (getJWK cfg) = Ok jwk ->
  exists bs l,
    PrivateJWKFromBytes bs = Ok jwk /\
    calls (getJWK cfg) = l ++ [Call_PrivateJWKFromBytes bs] /\
    (cfg_signingKey cfg <> "" -> bs = cfg_signingKey cfg /\ l = []) /\
    (cfg_signingKey cfg = "" ->
     exists key, NewSigningKey = Ok key /\ EncodePrivateKey key = Ok bs /\
                 l = [Call_NewSigningKey; Call_EncodePrivateKey key]).
Proof.
  destruct (String.eqb_spec (cfg_signingKey cfg) "") as [Hkey | Hkey].
  - rewrite (getJWK_generated cfg Hkey).
    destruct NewSigningKey as [key | err]; [| discriminate].
    destruct (EncodePrivateKey key) as [bs | err] eqn:Hbs; [| discriminate].
    unfold returned, calls. simpl.
    destruct (PrivateJWKFromBytes bs) as [jwk' | err] eqn:Hjwk;
      [| discriminate].
    intros [= <-]. exists bs, [Call_NewSigningKey; Call_EncodePrivateKey key].
    repeat split; try assumption; try reflexivity; try contradiction.
    intros _. exists key. now repeat split.
  - rewrite (getJWK_supplied cfg Hkey). unfold returned, calls. simpl.
    destruct (PrivateJWKFromBytes (cfg_signingKey cfg)) as [jwk' | err] eqn:Hjwk;
      [| discriminate].
    intros [= <-]. exists (cfg_signingKey cfg), [].
    repeat split; try assumption; try reflexivity. contradiction.
Qed.

Lemma New_calls_start store (options : list Option) :
  exists rest,
    New_calls (New store options) =
      calls (getJWK (getConfig options)) ++ rest.
Proof.
  rewrite New_spec. cbv zeta. unfold New_calls.
  destruct (returned (getJWK (getConfig options))) as [jwk | err];
    [| exists []; simpl; now rewrite app_nil_r].
  destruct (NewHeadersEvaluator (updatedStore (getConfig options) store jwk));
    eexists; reflexivity.
Qed.

(** When none of the options given sets the signing key, the first thing
    construction does is to generate one. *)
Theorem New_without_signing_key_generates store (ss : list Setting) :
  Forall (fun s => field_of s <> FieldSigningKey) ss ->
  exists rest,
    New_calls (New store (map option_of ss)) = Call_NewSigningKey :: rest.
Proof.
  intros Hss.
  assert (Hkey : cfg_signingKey (getConfig (map option_of ss)) = "").
  { unfold getConfig. now rewrite signingKey_unset. }
  destruct (New_calls_start store (map option_of ss)) as [rest ->].
  rewrite (getJWK_generated _ Hkey).
  destruct NewSigningKey as [key | err]; [| eexists; reflexivity].
  destruct (EncodePrivateKey key); eexists; reflexivity.
Qed.

End ConstructionFacts.

(** ** The signing key of a construction *)

Section SigningKeyAtConstruction.
Context {T : Types} {C : Collaborators}.
Implicit Types (store : Store).

Lemma New_store_signing_key store (options : list Option) jwk :
  returned (getJWK (getConfig options)) = Ok jwk ->
  SigningKey (New_store (New store options)) = Some jwk.
Proof.
  intros Hjwk. rewrite New_spec. cbv zeta. rewrite Hjwk. unfold New_store.
  now destruct (NewHeadersEvaluator
                  (updatedStore (getConfig options) store jwk)).
Qed.

(** C7: at construction, when the configuration has no signing key New
    begins by generating a key pair, which is encoded and decoded into the
    JWK that updateStore puts into the store; a supplied key is decoded as
    it is, as the first call of New and without any generation, and the
    decoded JWK is put into the store; when the supplied key does not decode
    into a private JWK, updateStore and New fail with an error and the store
    is left exactly as it was. *)
Theorem signing_key_at_construction store (options : list Option) :
  (cfg_signingKey (getConfig options) = "" ->
   (exists rest,
      New_calls (New store options) = Call_NewSigningKey :: rest) /\
   forall key bs jwk,
     NewSigningKey = Ok key -> EncodePrivateKey key = Ok bs ->
     PrivateJWKFromBytes bs = Ok jwk ->
     getJWK (getConfig options) =
       ([Call_NewSigningKey; Call_EncodePrivateKey key;
         Call_PrivateJWKFromBytes bs], Ok jwk) /\
     updateStore (getConfig options) store =
       ([Call_NewSigningKey; Call_EncodePrivateKey key;
         Call_PrivateJWKFromBytes bs],
        updatedStore (getConfig options) store jwk, None) /\
     (exists rest,
        New_calls (New store options) =
          [Call_NewSigningKey; Call_EncodePrivateKey key;
           Call_PrivateJWKFromBytes bs] ++ rest) /\
     SigningKey (New_store (New store options)) = Some jwk)
  /\
  (cfg_signingKey (getConfig options) <> "" ->
   calls (getJWK (getConfig options)) =
     [Call_PrivateJWKFromBytes (cfg_signingKey (getConfig options))] /\
   (exists rest,
      New_calls (New store options) =
        Call_PrivateJWKFromBytes (cfg_signingKey (getConfig options)) :: rest) /\
   List.filter is_key_generation (New_calls (New store options)) = [] /\
   forall jwk,
     PrivateJWKFromBytes (cfg_signingKey (getConfig options)) = Ok jwk ->
     returned (getJWK (getConfig options)) = Ok jwk /\
     updateStore (getConfig options) store =
       ([Call_PrivateJWKFromBytes (cfg_signingKey (getConfig options))],
        updatedStore (getConfig options) store jwk, None) /\
     SigningKey (New_store (New store options)) = Some jwk)
  /\
  (forall err,
     cfg_signingKey (getConfig options) <> "" ->
     PrivateJWKFromBytes (cfg_signingKey (getConfig options)) = Err err ->
     updateStore (getConfig options) store =
       ([Call_PrivateJWKFromBytes (cfg_signingKey (getConfig options))],
        store,
        Some (fmt_Errorf_w "authorize: couldn't create signer: %w"
                (fmt_Errorf_w "couldn't generate signing key: %w" err))) /\
     New store options =
       ([Call_PrivateJWKFromBytes (cfg_signingKey (getConfig options))],
        store,
        Err (fmt_Errorf_w "authorize: couldn't create signer: %w"
               (fmt_Errorf_w "couldn't generate signing key: %w" err)))).
Proof.
  destruct (New_calls_start store options) as [rest Hstart].
  split; [| split].
  - intros Hkey. split.
    + rewrite Hstart, (getJWK_generated _ Hkey).
      destruct NewSigningKey as [key | err]; [| eexists; reflexivity].
      destruct (EncodePrivateKey key); eexists; reflexivity.
    + intros key bs jwk Hgen Henc Hdec.
      assert (HJ : getJWK (getConfig options) =
                ([Call_NewSigningKey; Call_EncodePrivateKey key;
                  Call_PrivateJWKFromBytes bs], Ok jwk)).
      { now rewrite (getJWK_generated _ Hkey), Hgen, Henc, Hdec. }
      split; [exact HJ |]. split; [| split].
      * now rewrite updateStore_spec, HJ.
      * exists rest. now rewrite Hstart, HJ.
      * apply New_store_signing_key. now rewrite HJ.
  - intros Hkey. rewrite (getJWK_supplied _ Hkey).
    split; [reflexivity |]. split; [| split].
    + exists rest. now rewrite Hstart, (getJWK_supplied _ Hkey).
    + now apply New_supplied_no_key_generation.
    + intros jwk Hjwk. rewrite Hjwk. split; [reflexivity |]. split.
      * now rewrite updateStore_spec, (getJWK_supplied _ Hkey), Hjwk.
      * apply New_store_signing_key.
        now rewrite (getJWK_supplied _ Hkey), Hjwk.
  - intros err Hkey Herr.
    assert (Hfail : updateStore (getConfig options) store =
              ([Call_PrivateJWKFromBytes (cfg_signingKey (getConfig options))],
               store,
               Some (fmt_Errorf_w "authorize: couldn't create signer: %w"
                       (fmt_Errorf_w "couldn't generate signing key: %w" err)))).
    { apply updateStore_fails. now rewrite (getJWK_supplied _ Hkey), Herr. }
    split; [exact Hfail |]. now apply New_fails_with_updateStore.
Qed.

End SigningKeyAtConstruction.

(** Without a configured key New generates one and puts it into the live
    store; a supplied key that is no private key fails the construction and
    the live store keeps its policies and its signing key. *)
Lemma signing_key_at_construction_witness :
  (exists rest,
     New_calls (New Testbed.liveStore Configurations.oneRoute) =
       Call_NewSigningKey :: rest)
  /\ SigningKey (New_store (New Testbed.liveStore Configurations.oneRoute)) =
       Some "jwk:pem:generated"
  /\ New Testbed.liveStore Configurations.badKey =
       ([Call_PrivateJWKFromBytes "garbage"],
        Testbed.liveStore,
        Err (fmt_Errorf_w "authorize: couldn't create signer: %w"
               (fmt_Errorf_w "couldn't generate signing key: %w"
                  (errors_New "jwk: no private key")))).
Proof.
  destruct (signing_key_at_construction Testbed.liveStore
              Configurations.oneRoute) as (Hnone & _ & _).
  destruct (Hnone eq_refl) as [Hfirst Hgen].
  destruct (Hgen "generated" "pem:generated" "jwk:pem:generated"
              eq_refl eq_refl eq_refl) as (_ & _ & _ & Hstore).
  split; [exact Hfirst |]. split; [exact Hstore |].
  destruct (signing_key_at_construction Testbed.liveStore
              Configurations.badKey) as (_ & _ & Hbad).
  apply (Hbad (errors_New "jwk: no private key"));
    [discriminate | vm_compute; reflexivity].
Defined.

Lemma New_registers_every_policy_witness :
  exists pe,
    registered (Testbed.evaluator false true)
      (Testbed.request false (Some Testbed.app) "/" "s1" Testbed.noCertificate)
      Testbed.app pe.
Proof.
  apply (New_registers_every_policy Testbed.emptyStore Configurations.oneRoute
           (New_calls (New Testbed.emptyStore Configurations.oneRoute))
           (New_store (New Testbed.emptyStore Configurations.oneRoute))
           (Testbed.evaluator false true));
    [vm_compute; reflexivity | reflexivity | left; reflexivity].
Defined.

Lemma New_registers_only_configured_witness :
  route_not_found (Testbed.evaluator false true)
    (Testbed.request false (Some Testbed.unknown) "/" "s1"
       Testbed.noCertificate).
Proof.
  destruct (New_registers_only_configured Testbed.emptyStore
              Configurations.oneRoute
              (New_calls (New Testbed.emptyStore Configurations.oneRoute))
              (New_store (New Testbed.emptyStore Configurations.oneRoute))
              (Testbed.evaluator false true)) as [_ Hnone];
    [vm_compute; reflexivity |].
  apply (Hnone _ Testbed.unknown 13%N); [reflexivity | reflexivity |].
  repeat constructor. vm_compute. discriminate.
Defined.

Lemma New_last_policy_wins_witness :
  policyEvaluators (Testbed.evaluator true true) !! 15%N =
    Some {| Testbed.defaultClientCertificateRule := true;
            Testbed.tracing := true |}.
Proof.
  apply (New_last_policy_wins Testbed.emptyStore Configurations.sameRouteTwice
           (New_calls (New Testbed.emptyStore Configurations.sameRouteTwice))
           (New_store (New Testbed.emptyStore Configurations.sameRouteTwice))
           (Testbed.evaluator true true)
           [Testbed.app] Testbed.appWithCA []);
    [vm_compute; reflexivity | reflexivity
    | split; vm_compute; reflexivity | constructor].
Defined.

Lemma New_succeeds_iff_witness :
  is_Ok (New_returned (New Testbed.emptyStore Configurations.oneBroken)) =
    false.
Proof.
  destruct (is_Ok (New_returned
                     (New Testbed.emptyStore Configurations.oneBroken)))
    eqn:HNew; [| reflexivity].
  apply (New_succeeds_iff Testbed.emptyStore Configurations.oneBroken) in HNew
    as (jwk & _ & _ & Hps).
  apply Forall_cons_iff in Hps as [_ Hps].
  apply Forall_cons_iff in Hps as [(id & pe & Hid & _) _].
  vm_compute in Hid. discriminate Hid.
Defined.

(** Construction that fails on its second policy has already replaced the
    policies and the signing key of the live store. *)
Lemma New_store_follows_signing_key_witness :
  New_returned (New Testbed.liveStore Configurations.oneBroken) =
    Err (fmt_Errorf_w "authorize: error computing policy route id: %w"
           (errors_New "policy: empty from"))
  /\ SigningKey (New_store (New Testbed.liveStore Configurations.oneBroken)) =
       Some "jwk:pem:generated"
  /\ RoutePolicies
       (New_store (New Testbed.liveStore Configurations.oneBroken)) =
       [Testbed.app; Testbed.broken].
Proof.
  split; [vm_compute; reflexivity |].
  destruct (New_store_follows_signing_key Testbed.liveStore
              Configurations.oneBroken) as [_ Hkey].
  apply (Hkey "jwk:pem:generated"). vm_compute. reflexivity.
Defined.

Lemma getJWK_provenance_witness :
  exists bs l,
    PrivateJWKFromBytes (Collaborators := Testbed.collaborators) bs =
      Ok "jwk:pem:mine" /\
    calls (getJWK (C := Testbed.collaborators)
             (getConfig [WithSigningKey "pem:mine"])) =
      l ++ [Call_PrivateJWKFromBytes bs].
Proof.
  destruct (getJWK_provenance (C := Testbed.collaborators)
              (getConfig [WithSigningKey "pem:mine"]) "jwk:pem:mine")
    as (bs & l & Hbs & Hcalls & _); [vm_compute; reflexivity |].
  exists bs, l. split; assumption.
Defined.

Lemma New_without_signing_key_generates_witness :
  exists rest,
    New_calls (New Testbed.liveStore
                 (map option_of Configurations.settings)) =
      Call_NewSigningKey :: rest.
Proof.
  apply (New_without_signing_key_generates Testbed.liveStore
           Configurations.settings).
  repeat constructor; discriminate.
Defined.

(** ** What a request can and cannot cause *)

Section RequestFacts.
Context {T : Types} {C : Collaborators}.
Implicit Types (e : Evaluator) (req : Request).

Lemma policy_trichotomy e req :
  route_not_found e req \/
  (exists p err, ReqPolicy req = Some p /\ RouteID p = Err err) \/
  (exists p pe, registered e req p pe).
Proof.
  destruct (ReqPolicy req) as [p |] eqn:Hp; [| left; now left].
  destruct (RouteID p) as [id | err] eqn:Hid; [| right; left; eauto].
  destruct (policyEvaluators e !! id) as [pe |] eqn:Hpe.
  - right. right. exists p, pe. split; eauto.
  - left. right. eauto 6.
Qed.

Lemma registered_unique e req p1 pe1 p2 pe2 :
  registered e req p1 pe1 -> registered e req p2 pe2 ->
  p1 = p2 /\ pe1 = pe2.
Proof.
  intros (Hp1 & id1 & Hid1 & Hpe1) (Hp2 & id2 & Hid2 & Hpe2).
  rewrite Hp1 in Hp2. injection Hp2 as <-.
  rewrite Hid1 in Hid2. injection Hid2 as <-.
  rewrite Hpe1 in Hpe2. injection Hpe2 as <-. now split.
Qed.

Lemma getClientCA_calls_In e (policy : option Policy) c :
  In c (calls (getClientCA e policy)) -> exists s, c = Call_DecodeString s.
Proof.
  unfold getClientCA. destruct policy as [p |]; [| intros []].
  destruct (negb _); [| intros []].
  destruct (base64_DecodeString (TLSDownstreamClientCA p));
    (intros [<- | []]; eauto).
Qed.

Lemma policyCalls_eq first e req :
  policyCalls (Evaluate first e req) = calls (policyUnit e req).
Proof. reflexivity. Qed.

Lemma headersCalls_eq first e req :
  headersCalls (Evaluate first e req) =
    [Call_HeadersEvaluator_Evaluate (headersEvaluators e) (headersRequest req)].
Proof. apply evaluateHeaders_calls. Qed.

(** The calls and the result of the policy unit in each of its cases. *)
Inductive PolicyRun e req : list Call -> result PolicyResponse -> Prop :=
| RunInternal po :
    IsInternal req = true ->
    PolicyRun e req [] (Ok po)
| RunNotFound l :
    IsInternal req = false -> route_not_found e req ->
    l = [] \/ (exists p, l = [Call_RouteID p]) ->
    PolicyRun e req l (Ok denyRouteNotFound)
| RunNoRouteID p err :
    IsInternal req = false -> ReqPolicy req = Some p -> RouteID p = Err err ->
    PolicyRun e req [Call_RouteID p]
      (Err (fmt_Errorf_w "authorize: error computing policy route id: %w" err))
| RunNoCA p pe err :
    IsInternal req = false -> registered e req p pe ->
    TLSDownstreamClientCA p <> "" ->
    base64_DecodeString (TLSDownstreamClientCA p) = Err err ->
    PolicyRun e req
      [Call_RouteID p; Call_DecodeString (TLSDownstreamClientCA p)] (Err err)
| RunFault p pe ca l err :
    IsInternal req = false -> registered e req p pe ->
    getClientCA e (Some p) = (l, Ok ca) ->
    isValidClientCertificate ca (clientCRL e)
      (ClientCertificate (HTTP req)) (clientCertConstraints e) = Err err ->
    PolicyRun e req
      (Call_RouteID p :: l ++
         [Call_isValidClientCertificate ca (clientCRL e)
            (ClientCertificate (HTTP req)) (clientCertConstraints e)])
      (Err (fmt_Errorf_w
              "authorize: error validating client certificate: %w" err))
| RunRules p pe ca l valid :
    IsInternal req = false -> registered e req p pe ->
    getClientCA e (Some p) = (l, Ok ca) ->
    isValidClientCertificate ca (clientCRL e)
      (ClientCertificate (HTTP req)) (clientCertConstraints e) = Ok valid ->
    PolicyRun e req
      (Call_RouteID p :: l ++
         [Call_isValidClientCertificate ca (clientCRL e)
            (ClientCertificate (HTTP req)) (clientCertConstraints e);
          Call_PolicyEvaluator_Evaluate pe
            {| PReqHTTP := HTTP req;
               PReqSession := Session req;
               IsValidClientCertificate := valid |}])
      (PolicyEvaluator_Evaluate pe
         {| PReqHTTP := HTTP req;
            PReqSession := Session req;
            IsValidClientCertificate := valid |}).

Lemma policyUnit_run e req :
  PolicyRun e req (calls (policyUnit e req)) (returned (policyUnit e req)).
Proof.
  unfold policyUnit. destruct (IsInternal req) eqn:Hint.
  - rewrite evaluateInternal_no_calls.
    destruct (returned (evaluateInternal e req)) as [po | err] eqn:Hr.
    + now constructor.
    + exfalso. revert Hr. unfold evaluateInternal.
      destruct (_ || _); [destruct (_ =? _)%string |]; discriminate.
  - destruct (policy_trichotomy e req)
      as [Hnf | [(p & err & Hp & Hid) | (p & pe & Hreg)]].
    + destruct (evaluatePolicy_route_not_found e req Hnf) as [-> Hcalls].
      now constructor.
    + rewrite (evaluatePolicy_RouteID_fails e req p err Hp Hid).
      now constructor.
    + rewrite (evaluatePolicy_registered e req p pe Hreg).
      destruct (getClientCA e (Some p)) as [l [ca | err]] eqn:Hca.
      * destruct (isValidClientCertificate ca (clientCRL e)
                    (ClientCertificate (HTTP req)) (clientCertConstraints e))
          as [valid | err] eqn:Hvalid; cbv zeta.
        -- now apply (RunRules e req p pe ca l valid).
        -- now apply (RunFault e req p pe ca l err).
      * destruct (String.eqb_spec (TLSDownstreamClientCA p) "") as [Hno | Hyes].
        -- rewrite (getClientCA_default e p Hno) in Hca. discriminate Hca.
        -- rewrite (getClientCA_override e p Hyes) in Hca.
           injection Hca as <- Herr.
           now apply (RunNoCA e req p pe err).
Qed.

(** A policy evaluator is called only when it is registered for the
    request's policy. *)
Lemma rule_evaluation_registered first e req pe preq :
  In (Call_PolicyEvaluator_Evaluate pe preq) (all_calls (Evaluate first e req)) ->
  exists p, registered e req p pe.
Proof.
  unfold all_calls. rewrite headersCalls_eq, policyCalls_eq.
  intros Hin. apply in_app_or in Hin as [Hin | [Hin | []]];
    [| discriminate Hin].
  assert (Hca : forall p, ~ In (Call_PolicyEvaluator_Evaluate pe preq)
                            (calls (getClientCA e (Some p)))).
  { intros p Hl. apply getClientCA_calls_In in Hl as [s Hs]. discriminate Hs. }
  destruct (policyUnit_run e req)
    as [po Hint | l Hint Hnf Hl | p err Hint Hp Hid | p pe' err Hint Hreg _ _
        | p pe' ca l err Hint Hreg Hl _
        | p pe' ca l valid Hint Hreg Hl _].
  - destruct Hin.
  - destruct Hl as [-> | [p ->]]; [destruct Hin |].
    destruct Hin as [Hin | []]; discriminate Hin.
  - destruct Hin as [Hin | []]; discriminate Hin.
  - destruct Hin as [Hin | [Hin | []]]; discriminate Hin.
  - exfalso. destruct Hin as [Hin | Hin]; [discriminate Hin |].
    apply in_app_or in Hin as [Hin | [Hin | []]]; [| discriminate Hin].
    apply (Hca p). now rewrite Hl.
  - destruct Hin as [Hin | Hin]; [discriminate Hin |].
    apply in_app_or in Hin as [Hin | [Hin | [Hin | []]]];
      [exfalso; apply (Hca p); now rewrite Hl | discriminate Hin |].
    injection Hin as <- _. now exists p.
Qed.

(** A rule evaluation happens only for a non-internal request, by the
    policy evaluator registered under the route id of the request's policy;
    it is the last call of the policy unit, it directly follows the
    certificate validation, and it carries the verdict of that validation
    together with the request's HTTP and session data. *)
Theorem rule_evaluation_inv first e req pe preq :
  In (Call_PolicyEvaluator_Evaluate pe preq) (all_calls (Evaluate first e req)) ->
  IsInternal req = false /\
  exists p ca l,
    registered e req p pe /\
    returned (getClientCA e (Some p)) = Ok ca /\
    isValidClientCertificate ca (clientCRL e)
      (ClientCertificate (HTTP req)) (clientCertConstraints e) =
      Ok (IsValidClientCertificate preq) /\
    PReqHTTP preq = HTTP req /\
    PReqSession preq = Session req /\
    policyCalls (Evaluate first e req) =
      l ++ [Call_isValidClientCertificate ca (clientCRL e)
              (ClientCertificate (HTTP req)) (clientCertConstraints e);
            Call_PolicyEvaluator_Evaluate pe preq].
Proof.
  unfold all_calls. rewrite headersCalls_eq, policyCalls_eq.
  intros Hin. apply in_app_or in Hin as [Hin | [Hin | []]];
    [| discriminate Hin].
  destruct (policyUnit_run e req)
    as [po Hint | l Hint Hnf Hl | p err Hint Hp Hid | p pe' err Hint Hreg Hca Herr
        | p pe' ca l err Hint Hreg Hca Herr
        | p pe' ca l valid Hint Hreg Hca Hvalid].
  - destruct Hin.
  - destruct Hl as [-> | [p ->]]; [destruct Hin |].
    destruct Hin as [Hin | []]; discriminate Hin.
  - destruct Hin as [Hin | []]; discriminate Hin.
  - destruct Hin as [Hin | [Hin | []]]; discriminate Hin.
  - exfalso. destruct Hin as [Hin | Hin]; [discriminate Hin |].
    apply in_app_or in Hin as [Hin | [Hin | []]]; [| discriminate Hin].
    assert (Hl : In (Call_PolicyEvaluator_Evaluate pe preq)
                   (calls (getClientCA e (Some p)))) by now rewrite Hca.
    apply getClientCA_calls_In in Hl as [s Hs]. discriminate Hs.
  - destruct Hin as [Hin | Hin]; [discriminate Hin |].
    apply in_app_or in Hin as [Hin | [Hin | [Hin | []]]];
      [exfalso | discriminate Hin |].
    + assert (Hl : In (Call_PolicyEvaluator_Evaluate pe preq)
                     (calls (getClientCA e (Some p)))) by now rewrite Hca.
      apply getClientCA_calls_In in Hl as [s Hs]. discriminate Hs.
    + injection Hin as <- <-. split; [assumption |].
      exists p, ca, (Call_RouteID p :: l).
      rewrite Hca. simpl. repeat split; try assumption; try reflexivity.
      * apply Hreg.
      * apply Hreg.
Qed.


Lemma getClientCA_filters e (policy : option Policy) l r :
  getClientCA e policy = (l, r) -> validations l = [] /\ rule_evaluations l = [].
Proof.
  intros H. pose proof (getClientCA_calls e policy) as Hc.
  now rewrite H in Hc.
Qed.

(** A request causes at most one certificate validation and at most one
    rule evaluation, and no rule evaluation without a certificate
    validation. *)
Theorem one_validation_per_request first e req :
  length (rule_evaluations (all_calls (Evaluate first e req))) <=
    length (validations (all_calls (Evaluate first e req))) /\
  length (validations (all_calls (Evaluate first e req))) <= 1.
Proof.
  unfold all_calls. rewrite headersCalls_eq, policyCalls_eq.
  rewrite validations_app, rule_evaluations_app, !length_app. simpl.
  destruct (policyUnit_run e req)
    as [po Hint | l Hint Hnf Hl | p err Hint Hp Hid | p pe' err Hint Hreg Hca Herr
        | p pe' ca l err Hint Hreg Hca Herr
        | p pe' ca l valid Hint Hreg Hca Hvalid].
  - simpl. lia.
  - destruct Hl as [-> | [p ->]]; simpl; lia.
  - simpl. lia.
  - simpl. lia.
  - destruct (getClientCA_filters _ _ _ _ Hca) as [Hv Hr].
    change (Call_RouteID p :: ?x) with ([Call_RouteID p] ++ x).
    rewrite !validations_app, !rule_evaluations_app, Hv, Hr. simpl. lia.
  - destruct (getClientCA_filters _ _ _ _ Hca) as [Hv Hr].
    change (Call_RouteID p :: ?x) with ([Call_RouteID p] ++ x).
    rewrite !validations_app, !rule_evaluations_app, Hv, Hr. simpl. lia.
Qed.

(** A non-internal request is never allowed by default: a Result that
    allows it repeats the Allow, Deny and Traces that the policy evaluator
    registered for its route returned, after a certificate validation that
    ended without error. *)
Theorem allow_needs_policy_evaluator first e req r :
  IsInternal req = false ->
  outcome (Evaluate first e req) = Ok r ->
  Value (Allow r) = true ->
  exists p pe ca valid po,
    registered e req p pe /\
    returned (getClientCA e (Some p)) = Ok ca /\
    isValidClientCertificate ca (clientCRL e)
      (ClientCertificate (HTTP req)) (clientCertConstraints e) = Ok valid /\
    PolicyEvaluator_Evaluate pe
      {| PReqHTTP := HTTP req;
         PReqSession := Session req;
         IsValidClientCertificate := valid |} = Ok po /\
    Allow r = PAllow po /\ Deny r = PDeny po /\ Traces r = PTraces po.
Proof.
  intros Hext Hr Hallow.
  apply Evaluate_Ok_inv in Hr as (po & ho & Hp & _ & ->). simpl in Hallow.
  pose proof (policyUnit_run e req) as Hrun. rewrite Hp in Hrun.
  inversion Hrun as [po' Hint | l Hint Hnf Hl | | |
                     | p pe ca l valid Hint Hreg Hca Hvalid Hcalls Hpo]; subst.
  - congruence.
  - discriminate Hallow.
  - exists p, pe, ca, valid, po. rewrite Hca.
    split; [exact Hreg |]. split; [reflexivity |].
    split; [exact Hvalid |]. split; [exact Hpo |]. now repeat split.
Qed.

(** The decision on an internal request depends on its path and session
    id only: not on the policy, the client certificate, the headers or the
    method of the request, nor on what the evaluator was configured with. *)
Theorem internal_decision_depends_on_path_and_session e1 e2 req1 req2 :
  IsInternal req1 = true -> IsInternal req2 = true ->
  Path (HTTP req1) = Path (HTTP req2) ->
  ID (Session req1) = ID (Session req2) ->
  policyUnit e1 req1 = policyUnit e2 req2 /\
  forall first r1 r2,
    outcome (Evaluate first e1 req1) = Ok r1 ->
    outcome (Evaluate first e2 req2) = Ok r2 ->
    Allow r1 = Allow r2 /\ Deny r1 = Deny r2 /\ Traces r1 = Traces r2.
Proof.
  intros Hint1 Hint2 Hpath Hsid.
  assert (Hsame : policyUnit e1 req1 = policyUnit e2 req2).
  { unfold policyUnit, evaluateInternal. now rewrite Hint1, Hint2, Hpath, Hsid. }
  split; [exact Hsame |].
  intros first r1 r2 H1 H2.
  apply Evaluate_Ok_inv in H1 as (po1 & ho1 & Hp1 & _ & ->).
  apply Evaluate_Ok_inv in H2 as (po2 & ho2 & Hp2 & _ & ->).
  rewrite Hsame, Hp2 in Hp1. injection Hp1 as <-. now repeat split.
Qed.

(** Evaluate raises no error of its own: an error it returns is the error
    of the headers evaluator, or, for a non-internal request with a policy,
    the error of the route id computation (wrapped), of decoding the
    policy's client CA, of certificate validation (wrapped) or of the
    registered policy evaluator. *)
Theorem Evaluate_error_provenance first e req err :
  outcome (Evaluate first e req) = Err err ->
  HeadersEvaluator_Evaluate (headersEvaluators e) (headersRequest req) = Err err
  \/
  (IsInternal req = false /\
   exists p, ReqPolicy req = Some p /\
     ((exists x, RouteID p = Err x /\
         err = fmt_Errorf_w
                 "authorize: error computing policy route id: %w" x)
      \/ (TLSDownstreamClientCA p <> "" /\
          base64_DecodeString (TLSDownstreamClientCA p) = Err err)
      \/ (exists pe ca, registered e req p pe /\
            returned (getClientCA e (Some p)) = Ok ca /\
            ((exists x,
                isValidClientCertificate ca (clientCRL e)
                  (ClientCertificate (HTTP req)) (clientCertConstraints e) =
                  Err x /\
                err = fmt_Errorf_w
                        "authorize: error validating client certificate: %w" x)
             \/
             (exists valid,
                isValidClientCertificate ca (clientCRL e)
                  (ClientCertificate (HTTP req)) (clientCertConstraints e) =
                  Ok valid /\
                PolicyEvaluator_Evaluate pe
                  {| PReqHTTP := HTTP req;
                     PReqSession := Session req;
                     IsValidClientCertificate := valid |} = Err err))))).
Proof.
  intros Hout.
  assert (Hfrom : returned (headersUnit e req) = Err err \/
                  returned (policyUnit e req) = Err err).
  { revert Hout. unfold Evaluate. simpl.
    destruct (returned (policyUnit e req)) as [po | err1],
             (returned (headersUnit e req)) as [ho | err2], first; simpl;
      intros [= <-]; auto. }
  destruct Hfrom as [Hh | Hp].
  - left. unfold headersUnit in Hh. rewrite evaluateHeaders_returned in Hh.
    now destruct (HeadersEvaluator_Evaluate (headersEvaluators e)
                    (headersRequest req)).
  - right. pose proof (policyUnit_run e req) as Hrun. rewrite Hp in Hrun.
    inversion Hrun as [| | p x Hint Hpol Hid | p pe x Hint Hreg Hca Hx
                       | p pe ca l x Hint Hreg Hca Hx
                       | p pe ca l valid Hint Hreg Hca Hvalid Hcalls Hpe]; subst.
    + split; [assumption |]. exists p. split; [assumption |]. left. eauto.
    + split; [assumption |]. exists p. split; [apply Hreg |]. right. left.
      now split.
    + split; [assumption |]. exists p. split; [apply Hreg |]. right. right.
      exists pe, ca. rewrite Hca. repeat split; try apply Hreg. left. eauto.
    + split; [assumption |]. exists p. split; [apply Hreg |]. right. right.
      exists pe, ca. rewrite Hca. repeat split; try apply Hreg. right.
      exists valid. split; [assumption |]. now symmetry.
Qed.

End RequestFacts.

Lemma rule_evaluation_inv_witness :
  isValidClientCertificate (Collaborators := Testbed.collaborators)
    "route-ca" "" (Testbed.certificate "issued-by:route-ca") [] = Ok true.
Proof.
  destruct (rule_evaluation_inv PolicyUnit (Testbed.evaluator true true)
              (Testbed.request false (Some Testbed.appWithCA) "/" "s1"
                 (Testbed.certificate "issued-by:route-ca"))
              {| Testbed.defaultClientCertificateRule := true;
                 Testbed.tracing := true |}
              {| PReqHTTP := Testbed.http "/" ∅
                               (Testbed.certificate "issued-by:route-ca");
                 PReqSession := {| ID := "s1" |};
                 IsValidClientCertificate := true |})
    as (_ & p & ca & l & Hreg & Hca & Hvalid & _).
  { vm_compute. do 3 right. left. reflexivity. }
  destruct Hreg as [Hp _]. injection Hp as <-.
  vm_compute in Hca. injection Hca as <-. exact Hvalid.
Defined.

Lemma allow_needs_policy_evaluator_witness :
  exists pe,
    registered (Testbed.evaluator false true)
      (Testbed.request false (Some Testbed.app) "/" "s1" Testbed.noCertificate)
      Testbed.app pe.
Proof.
  destruct (allow_needs_policy_evaluator PolicyUnit
              (Testbed.evaluator false true)
              (Testbed.request false (Some Testbed.app) "/" "s1"
                 Testbed.noCertificate)
              {| Allow := NewRuleResult true [ReasonOther "accept"];
                 Deny := RuleResult_zero;
                 ResHeaders := HResHeaders (Testbed.signedHeaders "s1");
                 Traces := PTraces (Testbed.accepted RuleResult_zero) |})
    as (p & pe & _ & _ & _ & Hreg & _);
    [reflexivity | vm_compute; reflexivity | reflexivity |].
  exists pe. destruct Hreg as [Hp Hid]. split; [reflexivity |].
  injection Hp as <-. exact Hid.
Defined.

Lemma internal_decision_depends_on_path_and_session_witness :
  policyUnit (Testbed.evaluator true true)
    (Testbed.request true (Some Testbed.app) "/.pomerium/jwt" ""
       (Testbed.certificate "garbage")) =
  policyUnit (Testbed.evaluator false false)
    (Testbed.request true None "/.pomerium/jwt" "" Testbed.noCertificate).
Proof.
  apply (internal_decision_depends_on_path_and_session
           (Testbed.evaluator true true) (Testbed.evaluator false false));
    reflexivity.
Defined.

Lemma Evaluate_error_provenance_witness :
  HeadersEvaluator_Evaluate (Collaborators := Testbed.collaborators) false
    (headersRequest
       (Testbed.request true None "/" "s1" Testbed.noCertificate)) =
    Err (errors_New "headers: eval fault").
Proof.
  destruct (Evaluate_error_provenance PolicyUnit
              (Testbed.evaluator true false)
              (Testbed.request true None "/" "s1" Testbed.noCertificate)
              (errors_New "headers: eval fault"))
    as [Hh | [Hint _]]; [reflexivity | exact Hh | discriminate Hint].
Defined.

(** ** The carry-over only appends *)

Section CarryOverFacts.
Context {T : Types} {C : Collaborators}.
Implicit Types (dst : gmap string (list string)) (src : gmap string string).

Lemma Header_Add_values dst v k :
  default [] (Header_Add dst inboundAssertionFor v !! k) =
    default [] (dst !! k) ++
    (if decide (k = outboundAssertionFor) then [v] else []).
Proof.
  case_decide as Hk.
  - subst k. now rewrite Header_Add_lookup.
  - rewrite (Header_Add_lookup_ne dst v k Hk). now rewrite app_nil_r.
Qed.

Lemma no_value_dec src k :
  no_value src k \/ exists v, src !! k = Some v /\ v <> "".
Proof.
  unfold no_value. destruct (src !! k) as [v |]; [| left; now left].
  destruct (String.eqb_spec v "") as [-> | Hv]; [left; now right |].
  right. eauto.
Qed.

(** The carry-over pass leaves every value the headers evaluator produced
    in place and in order, under every header; what it adds is at most one
    value, non-empty, taken from one of the two inbound assertion headers
    and appended to the outbound assertion-for header. *)
Theorem carry_over_only_appends dst src :
  exists added,
    (added = [] \/
     exists v, added = [v] /\ v <> "" /\
               (src !! inboundAssertionFor = Some v \/
                src !! inboundAssertion = Some v)) /\
    forall k,
      default [] (carryOverJWTAssertion dst src !! k) =
        default [] (dst !! k) ++
        (if decide (k = outboundAssertionFor) then added else []).
Proof.
  destruct (no_value_dec src inboundAssertionFor) as [Hfor | (v & Hv & Hne)].
  - destruct (no_value_dec src inboundAssertion) as [Hplain | (v & Hv & Hne)].
    + exists []. split; [now left |]. intros k.
      rewrite (carryOver_nothing dst src Hfor Hplain).
      case_decide; now rewrite app_nil_r.
    + exists [v]. split; [right; exists v; auto |]. intros k.
      rewrite (carryOver_plain dst src v Hfor Hv Hne).
      apply Header_Add_values.
  - exists [v]. split; [right; exists v; auto |]. intros k.
    rewrite (carryOver_forwarded dst src v Hv Hne).
    apply Header_Add_values.
Qed.

End CarryOverFacts.

(** ** The proxy *)

Section ProxyFacts.
Context {PT : proxy.Types} {PC : proxy.Collaborators}.
Implicit Types (o : proxy.Options) (cfg : proxy.Config) (p : proxy.Proxy).

(** ValidateOptions accepts the options exactly when the shared secret
    and the cookie secret can both be read and both make an AEAD cipher. *)
Theorem ValidateOptions_accepts_iff o :
  snd (proxy.ValidateOptions o) = None <->
  exists sharedKey cookieSecret,
    proxy.GetSharedKey o = Ok sharedKey /\
    is_Ok (proxy.NewAEADCipher sharedKey) = true /\
    proxy.GetCookieSecret o = Ok cookieSecret /\
    is_Ok (proxy.NewAEADCipher cookieSecret) = true.
Proof.
  unfold proxy.ValidateOptions. split.
  - destruct (proxy.GetSharedKey o) as [sk | err]; [| discriminate].
    destruct (proxy.NewAEADCipher sk) as [a1 | err] eqn:H1; [| discriminate].
    destruct (proxy.GetCookieSecret o) as [cs | err]; [| discriminate].
    destruct (proxy.NewAEADCipher cs) as [a2 | err] eqn:H2; [| discriminate].
    intros _. exists sk, cs. rewrite H1, H2. now repeat split.
  - intros (sk & cs & -> & H1 & -> & H2).
    destruct (proxy.NewAEADCipher sk); [| discriminate H1].
    destruct (proxy.NewAEADCipher cs); [| discriminate H2]. reflexivity.
Qed.

(** The shared secret is checked first: an error of ValidateOptions either
    names SHARED_SECRET, and then the cookie secret was not even read, or
    names COOKIE_SECRET, and then the shared secret is good. *)
Theorem ValidateOptions_error_names_first_bad_secret o err :
  snd (proxy.ValidateOptions o) = Some err ->
  (exists x,
     err = fmt_Errorf_w "proxy: invalid 'SHARED_SECRET': %w" x /\
     List.filter proxy.inspects_cookie_secret
       (fst (proxy.ValidateOptions o)) = [] /\
     (proxy.GetSharedKey o = Err x \/
      exists sharedKey, proxy.GetSharedKey o = Ok sharedKey /\
                        proxy.NewAEADCipher sharedKey = Err x))
  \/
  (exists x sharedKey,
     err = fmt_Errorf_w "proxy: invalid 'COOKIE_SECRET': %w" x /\
     proxy.GetSharedKey o = Ok sharedKey /\
     is_Ok (proxy.NewAEADCipher sharedKey) = true /\
     (proxy.GetCookieSecret o = Err x \/
      exists cookieSecret, proxy.GetCookieSecret o = Ok cookieSecret /\
                           proxy.NewAEADCipher cookieSecret = Err x)).
Proof.
  unfold proxy.ValidateOptions.
  destruct (proxy.GetSharedKey o) as [sk | x] eqn:Hsk.
  - destruct (proxy.NewAEADCipher sk) as [a1 | x] eqn:H1.
    + destruct (proxy.GetCookieSecret o) as [cs | x] eqn:Hcs.
      * destruct (proxy.NewAEADCipher cs) as [a2 | x] eqn:H2;
          simpl; intros [= <-].
        right. exists x, sk. rewrite H1. repeat split. right. eauto.
      * simpl. intros [= <-]. right. exists x, sk. rewrite H1.
        repeat split. now left.
    + simpl. intros [= <-]. left. exists x. repeat split. right. eauto.
  - simpl. intros [= <-]. left. exists x. repeat split. now left.
Qed.

(** A config change always installs the new options and a router that the
    proxy rebuilds from a new router, with the new options stored and the
    state still the old one; the state is replaced only when it can be built
    from the new config and is kept otherwise, in which case that failure is
    the only error logged: setHandlers never fails.  The missing-policies
    warning is logged exactly when the new options have no policies. *)
Theorem OnConfigChange_updates p cfg :
  exists p',
    snd (proxy.OnConfigChange (Some p) cfg) = Some p' /\
    proxy.currentOptions p' = proxy.Config_Options cfg /\
    proxy.currentRouter p' =
      proxy.registerDashboardHandlers
        (proxy.storeOptions p (proxy.Config_Options cfg))
        (proxy.withBaseHandlers
           (proxy.storeOptions p (proxy.Config_Options cfg))
           proxy.NewRouter) /\
    proxy.webauthn p' = proxy.webauthn p /\
    proxy.state p' =
      match proxy.newProxyStateFromConfig cfg with
      | Ok st => st
      | Err _ => proxy.state p
      end /\
    List.filter proxy.is_error_log (fst (proxy.OnConfigChange (Some p) cfg)) =
      match proxy.newProxyStateFromConfig cfg with
      | Ok _ => []
      | Err err =>
          [proxy.Ev_log proxy.LevelError (Some err)
             "proxy: failed to update proxy state from configuration settings"]
      end /\
    (In (proxy.Ev_log proxy.LevelWarn None "proxy: configuration has no policies")
        (fst (proxy.OnConfigChange (Some p) cfg)) <->
     proxy.GetAllPolicies (proxy.Config_Options cfg) = []) /\
    proxy.policyCount p' =
      length (proxy.GetAllPolicies (proxy.Config_Options cfg)).
Proof.
  unfold proxy.OnConfigChange, proxy.setHandlers.
  assert (Hwarn : forall tail,
            List.filter proxy.is_error_log tail = tail ->
            Forall (fun ev => ev <> proxy.Ev_log proxy.LevelWarn None
                                      "proxy: configuration has no policies")
                   tail ->
            List.filter proxy.is_error_log
              ((if (length (proxy.GetAllPolicies (proxy.Config_Options cfg))
                    =? 0)%nat
                then [proxy.Ev_log proxy.LevelWarn None
                        "proxy: configuration has no policies"]
                else []) ++ [] ++ proxy.Ev_newProxyStateFromConfig cfg :: tail)
              = tail /\
            (In (proxy.Ev_log proxy.LevelWarn None
                   "proxy: configuration has no policies")
                ((if (length (proxy.GetAllPolicies (proxy.Config_Options cfg))
                      =? 0)%nat
                  then [proxy.Ev_log proxy.LevelWarn None
                          "proxy: configuration has no policies"]
                  else []) ++ [] ++
                 proxy.Ev_newProxyStateFromConfig cfg :: tail) <->
             proxy.GetAllPolicies (proxy.Config_Options cfg) = [])).
  { intros tail Htail Hno.
    destruct (proxy.GetAllPolicies (proxy.Config_Options cfg)) as [| q qs];
      simpl; (split; [exact Htail |]).
    - split; [reflexivity | intros _; now left].
    - split; [| discriminate].
      intros [H | H]; [discriminate H |].
      rewrite List.Forall_forall in Hno. exfalso. exact (Hno _ H eq_refl). }
  destruct (proxy.newProxyStateFromConfig cfg) as [st | err];
    eexists; (split; [reflexivity |]); simpl proxy.currentOptions;
    simpl proxy.currentRouter; simpl proxy.webauthn; simpl proxy.state;
    unfold proxy.policyCount, proxy.storeOptions; simpl fst;
    repeat (split; [reflexivity |]).
  - destruct (Hwarn []) as [Hf Hin]; [reflexivity | constructor |].
    split; [exact Hf |]. now split.
  - destruct (Hwarn [proxy.Ev_log proxy.LevelError (Some err)
                       "proxy: failed to update proxy state from configuration settings"])
      as [Hf Hin]; [reflexivity | repeat constructor; discriminate |].
    split; [exact Hf |]. now split.
Qed.

End ProxyFacts.

Lemma ValidateOptions_accepts_iff_witness :
  snd (proxy.ValidateOptions (PT := proxy.Testbed.types) proxy.Testbed.good) = None.
Proof.
  apply (ValidateOptions_accepts_iff (PT := proxy.Testbed.types)
           proxy.Testbed.good).
  exists proxy.Testbed.key32, proxy.Testbed.key32.
  repeat split; vm_compute; reflexivity.
Defined.

(** Both secrets are bad: the shared secret is the one reported. *)
Lemma ValidateOptions_error_names_first_bad_secret_witness :
  exists x,
    snd (proxy.ValidateOptions (PT := proxy.Testbed.types) proxy.Testbed.badShared) =
      Some (fmt_Errorf_w "proxy: invalid 'SHARED_SECRET': %w" x).
Proof.
  destruct (ValidateOptions_error_names_first_bad_secret
              (PT := proxy.Testbed.types) proxy.Testbed.badShared
              (fmt_Errorf_w "proxy: invalid 'SHARED_SECRET': %w"
                 (errors_New "chacha20poly1305: bad key length")))
    as [(x & Hx & _) | (x & sk & Hx & _)];
    [vm_compute; reflexivity | |].
  - exists x. rewrite <- Hx. vm_compute. reflexivity.
  - discriminate Hx.
Defined.

(** A config change whose state cannot be built: options and router are
    new, the state is the old one. *)
Lemma OnConfigChange_updates_witness :
  snd (proxy.OnConfigChange (Some proxy.Testbed.running)
         proxy.Testbed.badShared) =
    Some proxy.Testbed.afterBadChange.
Proof.
  destruct (OnConfigChange_updates proxy.Testbed.running
              proxy.Testbed.badShared)
    as (p' & -> & Hopts & Hrouter & Hweb & Hstate & _).
  destruct p' as [st opts router web]. simpl in *.
  rewrite Hopts, Hrouter, Hstate. destruct web. reflexivity.
Defined.

(** ** From configuration to decision *)

Section Composition.
Context {T : Types} {C : Collaborators}.
Implicit Types (e : Evaluator) (req : Request) (store : Store).

(** An evaluator built by New validates the certificate of a request whose
    policy has no client CA of its own against the client CA, the CRL and
    the constraints of the configuration. *)
Theorem configured_CA_validates store (options : list Option) l store' e
    first req p pe :
  New store options = (l, store', Ok e) ->
  IsInternal req = false ->
  registered e req p pe ->
  TLSDownstreamClientCA p = "" ->
  validations (all_calls (Evaluate first e req)) =
    [Call_isValidClientCertificate
       (cfg_clientCA (getConfig options)) (cfg_clientCRL (getConfig options))
       (ClientCertificate (HTTP req))
       (cfg_clientCertConstraints (getConfig options))].
Proof.
  intros HNew Hint Hreg Hno.
  apply New_Ok_inv in HNew as (jwk & _ & _ & _ & _ & Hca & Hcrl & Hcons).
  rewrite <- Hca, <- Hcrl, <- Hcons.
  apply (registered_calls first e req p pe (clientCA e) Hint Hreg).
  now rewrite getClientCA_default.
Qed.

(** The rules that decide a request are those of the configured policy
    that has the route id of the request's policy, built with the configured
    default rule: the policy carried by the request contributes its route
    id, not its rules. *)
Theorem evaluating_policy_was_configured store (options : list Option)
    l store' e first req pe preq :
  New store options = (l, store', Ok e) ->
  In (Call_PolicyEvaluator_Evaluate pe preq) (all_calls (Evaluate first e req)) ->
  exists p q id,
    ReqPolicy req = Some p /\ RouteID p = Ok id /\
    In q (cfg_policies (getConfig options)) /\
    builds store' (getConfig options) q id pe.
Proof.
  intros HNew Hin.
  apply rule_evaluation_registered in Hin as (p & Hp & id & Hid & Hpe).
  apply New_Ok_inv in HNew as (jwk & _ & _ & _ & Hloop & _).
  destruct (loop_sound _ _ _ _ _ _ _ Hloop Hpe) as [Hacc | (q & Hq & Hb)].
  - rewrite lookup_empty in Hacc. discriminate Hacc.
  - exists p, q, id. split; [exact Hp |]. split; [exact Hid |]. now split.
Qed.

End Composition.

Lemma configured_CA_validates_witness :
  validations
    (all_calls (Evaluate PolicyUnit (Testbed.evaluator false true)
                  (Testbed.request false (Some Testbed.app) "/" "s1"
                     (Testbed.certificate "issued-by:global-ca")))) =
    [Call_isValidClientCertificate "global-ca" ""
       (Testbed.certificate "issued-by:global-ca") []].
Proof.
  apply (configured_CA_validates Testbed.emptyStore Configurations.oneRoute
           (New_calls (New Testbed.emptyStore Configurations.oneRoute))
           (New_store (New Testbed.emptyStore Configurations.oneRoute))
           (Testbed.evaluator false true) PolicyUnit
           (Testbed.request false (Some Testbed.app) "/" "s1"
              (Testbed.certificate "issued-by:global-ca"))
           Testbed.app
           {| Testbed.defaultClientCertificateRule := false;
              Testbed.tracing := true |});
    [vm_compute; reflexivity | reflexivity | | reflexivity].
  split; [reflexivity |]. exists 15%N. split; reflexivity.
Defined.

(** A request that carries [appWithCA] is decided by the evaluator built for
    the configured policy [app], which has the same route id. *)
Lemma evaluating_policy_was_configured_witness :
  exists p q id,
    ReqPolicy (Testbed.request false (Some Testbed.appWithCA) "/" "s1"
                 (Testbed.certificate "issued-by:route-ca")) = Some p /\
    RouteID p = Ok id /\
    In q [Testbed.app] /\
    builds (New_store (New Testbed.emptyStore Configurations.oneRoute))
      (getConfig Configurations.oneRoute) q id
      {| Testbed.defaultClientCertificateRule := false;
         Testbed.tracing := true |}.
Proof.
  apply (evaluating_policy_was_configured Testbed.emptyStore
           Configurations.oneRoute
           (New_calls (New Testbed.emptyStore Configurations.oneRoute))
           (New_store (New Testbed.emptyStore Configurations.oneRoute))
           (Testbed.evaluator false true) PolicyUnit
           (Testbed.request false (Some Testbed.appWithCA) "/" "s1"
              (Testbed.certificate "issued-by:route-ca"))
           {| Testbed.defaultClientCertificateRule := false;
              Testbed.tracing := true |}
           {| PReqHTTP := Testbed.http "/" ∅
                            (Testbed.certificate "issued-by:route-ca");
              PReqSession := {| ID := "s1" |};
              IsValidClientCertificate := true |});
    [vm_compute; reflexivity |].
  vm_compute. do 3 right. left. reflexivity.
Defined.
